(** * Smart energy meter backend: ingestion, validation and store

    A shallow embedding of [app.py] (the [/meter], [/api/data] and
    [/api/export] handlers) and of [database.py] (class [DatabaseManager]),
    followed by the properties of the ingestion and query pipeline.

    Conventions of the embedding.
    - Python [str] values are [string]s (sequences of bytes); SQLite compares
      TEXT with its BINARY collation, which is [String.compare].
    - Python exceptions are the [Raise] case of [result]; a [try/except]
      becomes a [match] on it.
    - The SQLite file is an explicit [Store] value threaded through every
      operation; [with sqlite3.connect(...) as conn] commits on normal exit
      and rolls back when the body raises, so a raising operation hands
      back the store it was given.
    - What the code obtains from outside the repository is an explicit
      parameter: the builtins [float], [int], [str] and [round] and the
      SQLite date functions ([Runtime]), and, per call, the clock and the
      failure (if any) of the underlying sqlite3 layer ([Env]).
    - Logging and printing have no part in any result and are left out. *)

From Stdlib Require Import ZArith QArith Lia Ascii DecimalString.
From stdpp Require Import base strings list gmap sorting.

Open Scope string_scope.
Open Scope Z_scope.

(** ** Exceptions *)

(** The outcome of a Python call: a value, or a raised exception, of which
    the code only ever uses [str(e)]. *)
Inductive result (A : Type) : Type :=
  | Return (a : A)
  | Raise (msg : string).
Arguments Return {A} a.
Arguments Raise {A} msg.

Global Instance result_ret : MRet result := fun A a => Return a.

Global Instance result_bind : MBind result := fun A B k m =>
  match m with
  | Return a => k a
  | Raise e => Raise e
  end.

(** [if cond: raise ValueError(msg)] *)
Definition raise_if (cond : bool) (msg : string) : result unit :=
  if cond then Raise msg else Return tt.

(** ** Python floats

    A [float] is a finite double (a rational number), an infinity or NaN.
    The code only compares floats with the integer literals 0, 1, 45, 65,
    500 and 1000; Python performs these mixed comparisons exactly, and
    every comparison with NaN is false. *)
Inductive pyfloat : Type :=
  | Finite (q : Q)
  | Infinity
  | NegInfinity
  | NaN.

(** [x < n] *)
Definition float_lt (x : pyfloat) (n : Z) : bool :=
  match x with
  | Finite q => negb (Qle_bool (inject_Z n) q)
  | Infinity => false
  | NegInfinity => true
  | NaN => false
  end.

(** [x > n] *)
Definition float_gt (x : pyfloat) (n : Z) : bool :=
  match x with
  | Finite q => negb (Qle_bool q (inject_Z n))
  | Infinity => true
  | NegInfinity => false
  | NaN => false
  end.

(** The mathematical reading of [lo <= x], [x <= hi] and [lo <= x <= hi]:
    NaN satisfies none, an infinity only the bound on its side. *)
Definition at_least (lo : Z) (x : pyfloat) : Prop :=
  match x with
  | Finite q => (inject_Z lo <= q)%Q
  | Infinity => True
  | _ => False
  end.

Definition at_most (hi : Z) (x : pyfloat) : Prop :=
  match x with
  | Finite q => (q <= inject_Z hi)%Q
  | NegInfinity => True
  | _ => False
  end.

Definition in_range (lo hi : Z) (x : pyfloat) : Prop :=
  at_least lo x /\ at_most hi x.

(** ** Strings *)

(** [str.lower()] on one byte: [A-Z] to [a-z].  A byte outside ASCII is
    part of a multi-byte character, none of which lowers to [b], [o] or
    [t], the only letters the code looks for. *)
Definition lower_ascii (c : Ascii.ascii) : Ascii.ascii :=
  let n := Ascii.N_of_ascii c in
  if ((65 <=? n) && (n <=? 90))%N then Ascii.ascii_of_N (n + 32) else c.

Fixpoint lower (s : string) : string :=
  match s with
  | EmptyString => EmptyString
  | String c s' => String (lower_ascii c) (lower s')
  end.

(** [pat in s] *)
Fixpoint contains (pat s : string) : bool :=
  String.prefix pat s ||
  match s with
  | EmptyString => false
  | String _ s' => contains pat s'
  end.

(** Truthiness of an optional string: [None] and [''] are false. *)
Definition truthy (x : option string) : bool :=
  match x with
  | Some (String _ _) => true
  | _ => false
  end.

(** ** Request parameters

    [request.args] / [request.form]: a multi-dict whose [get] returns the
    first value stored under the key. *)
Definition Params : Type := list (string * string).

Fixpoint get (params : Params) (key : string) : option string :=
  match params with
  | [] => None
  | (k, v) :: rest => if String.eqb k key then Some v else get rest key
  end.

Definition get_default (params : Params) (key dflt : string) : string :=
  match get params key with
  | Some v => v
  | None => dflt
  end.

(** ** The world outside the repository *)

(** Builtins of Python and SQLite the code calls.  Their behaviour is not
    part of the repository; every theorem below holds for any of them. *)
Record Runtime : Type := {
  (** [float(s)]; raises [ValueError] on text that is no float literal *)
  py_float : string -> result pyfloat;
  (** [int(s)]; raises [ValueError] on text that is no integer literal *)
  py_int : string -> result Z;
  (** [str(x)], as an f-string formats [{x}] *)
  py_str : pyfloat -> string;
  (** [round(a / b, 2)] on integers [a], [b] *)
  py_round2 : Z -> Z -> pyfloat;
  (** SQLite [date(X)]: the [YYYY-MM-DD] part, NULL when [X] is no time value *)
  sql_date : string -> option string
}.

(** What one call observes of its environment. *)
Record Env : Type := {
  (** [datetime.now().isoformat()] *)
  now : string;
  (** SQLite [CURRENT_TIMESTAMP] *)
  current_timestamp : string;
  (** the exception, if any, that the sqlite3 layer raises during the call
      (file unreachable, disk full, database locked, ...) *)
  fault : option string;
  (** [datetime(X) >= datetime('now', '-1 day')] *)
  within_last_day : string -> bool;
  (** [datetime(X) < datetime('now', '-N days')] *)
  older_than : Z -> string -> bool;
  (** [page_count * page_size] *)
  file_size : Z
}.

(** ** Schema ([init_database]) *)

Module meter_readings.
Record row : Type := {
    id : Z;
    voltage : option pyfloat;
    current : option pyfloat;
    power_factor : option pyfloat;
    load_kw : option pyfloat;
    kwh : option pyfloat;
    frequency : option pyfloat;
    datetime_str : option string;
    retry_count : Z;
    source : option string;
    received_at : string;
    created_at : string
  }.
End meter_readings.

(** [device_status] has [UNIQUE(source)]: the table is a map from source to
    the rest of the row. *)
Module device_status.
Record row : Type := {
    id : Z;
    last_seen : string;
    status : string;
    boot_count : Z;
    error_count : Z
  }.
End device_status.

Module system_logs.
Record row : Type := {
    id : Z;
    level : string;
    message : string;
    module : option string;
    timestamp : string
  }.
End system_logs.

(** The three tables; each [*_seq] is the table's entry in
    [sqlite_sequence], the largest id [AUTOINCREMENT] has handed out. *)
Record Store : Type := {
  readings : list meter_readings.row;
  readings_seq : Z;
  devices : gmap string device_status.row;
  devices_seq : Z;
  logs : list system_logs.row;
  logs_seq : Z
}.

Definition empty_store : Store :=
  {| readings := []; readings_seq := 0;
     devices := ∅; devices_seq := 0;
     logs := []; logs_seq := 0 |}.

(** ** Binding Python values to SQL parameters *)

(** sqlite3 raises [OverflowError] for an [int] outside 64 bits. *)
Definition fits_int64 (z : Z) : bool :=
  (- 2 ^ 63 <=? z) && (z <=? 2 ^ 63 - 1).

Definition overflow : string :=
  "Python int too large to convert to SQLite INTEGER".

(** SQLite stores a NaN bound to a REAL column as NULL. *)
Definition bind_real (x : option pyfloat) : option pyfloat :=
  match x with
  | Some NaN => None
  | _ => x
  end.

(** ** [DatabaseManager] *)

Section DatabaseManager.
Variable rt : Runtime.
Variable env : Env.

  (** [init_database]: every statement is [CREATE ... IF NOT EXISTS]. *)
Definition init_database (db : Store) : result unit * Store :=
    match fault env with
    | Some e => (Raise e, db)
    | None => (Return tt, db)
    end.

  (** [insert_reading]: the reading row, then the [INSERT OR REPLACE] on
      [device_status], which names the columns [source], [last_seen],
      [status] and [error_count] only. *)
Definition insert_reading (db : Store)
      (voltage current power_factor load_kw kwh frequency : option pyfloat)
      (datetime_str : option string) (retry_count : Z)
      (source : option string) : result Z * Store :=
    match fault env with
    | Some e => (Raise e, db)
    | None =>
      let received_at := now env in
      if negb (fits_int64 retry_count) then (Raise overflow, db) else
      let reading_id := readings_seq db + 1 in
      let reading :=
        {| meter_readings.id := reading_id;
           meter_readings.voltage := bind_real voltage;
           meter_readings.current := bind_real current;
           meter_readings.power_factor := bind_real power_factor;
           meter_readings.load_kw := bind_real load_kw;
           meter_readings.kwh := bind_real kwh;
           meter_readings.frequency := bind_real frequency;
           meter_readings.datetime_str := datetime_str;
           meter_readings.retry_count := retry_count;
           meter_readings.source := source;
           meter_readings.received_at := received_at;
           meter_readings.created_at := current_timestamp env |} in
      match source with
      | None => (Raise "NOT NULL constraint failed: device_status.source", db)
      | Some s =>
        let kept_errors :=
          match devices db !! s with
          | Some d => device_status.error_count d
          | None => 0
          end in
        let device :=
          {| device_status.id := devices_seq db + 1;
             device_status.last_seen := received_at;
             device_status.status := "online";
             device_status.boot_count := 0;
             device_status.error_count := kept_errors |} in
        (Return reading_id,
         {| readings := readings db ++ [reading];
            readings_seq := reading_id;
            devices := <[s := device]> (devices db);
            devices_seq := devices_seq db + 1;
            logs := logs db;
            logs_seq := logs_seq db |})
      end
    end.

  (** The [WHERE] clauses [get_readings] appends. *)
Definition source_clause (source : option string)
      (r : meter_readings.row) : bool :=
    match source with
    | Some s =>
      if truthy source && negb (String.eqb s "All")
      then bool_decide (meter_readings.source r = Some s)
      else true
    | None => true
    end.

  (** [date(received_at) >= ?] *)
Definition from_date (start_date : string) (r : meter_readings.row) : bool :=
    match sql_date rt (meter_readings.received_at r) with
    | Some d => String.leb start_date d
    | None => false
    end.

  (** [date(received_at) <= ?] *)
Definition until_date (end_date : string) (r : meter_readings.row) : bool :=
    match sql_date rt (meter_readings.received_at r) with
    | Some d => String.leb d end_date
    | None => false
    end.

Definition start_clause (start_date : option string)
      (r : meter_readings.row) : bool :=
    match start_date with
    | Some d => if truthy start_date then from_date d r else true
    | None => true
    end.

Definition end_clause (end_date : option string)
      (r : meter_readings.row) : bool :=
    match end_date with
    | Some d => if truthy end_date then until_date d r else true
    | None => true
    end.

  (** [ORDER BY received_at DESC] and [ASC].  SQLite leaves the order of
      rows with equal keys open; the model takes the one of [merge_sort]. *)
Definition newer_first (r1 r2 : meter_readings.row) : Prop :=
    String.le (meter_readings.received_at r2) (meter_readings.received_at r1).

Definition older_first (r1 r2 : meter_readings.row) : Prop :=
    String.le (meter_readings.received_at r1) (meter_readings.received_at r2).

  (** [LIMIT ?]: a negative limit means no limit in SQLite. *)
Definition sql_limit {A} (limit : Z) (rows : list A) : list A :=
    if limit <? 0 then rows else take (Z.to_nat limit) rows.

Definition get_readings (db : Store) (source : option string) (limit : Z)
      (start_date end_date : option string)
      : result (list meter_readings.row) :=
    match fault env with
    | Some e => Raise e
    | None =>
      if negb (fits_int64 limit) then Raise overflow else
      let rows :=
        List.filter
          (fun r => source_clause source r && start_clause start_date r
                    && end_clause end_date r)
          (readings db) in
      Return (sql_limit limit (merge_sort newer_first rows))
    end.

  (** [get_latest_reading]: any failure is turned into [None]. *)
Definition get_latest_reading (db : Store) (source : option string)
      : result (option meter_readings.row) :=
    match get_readings db source 1 None None with
    | Return rows => Return (head rows)
    | Raise _ => Return None
    end.

  (** [get_statistics]: [SELECT COUNT( * ) ... GROUP BY source] read into a
      dict, and [MAX(received_at)]. *)
Definition count_by_source (rows : list meter_readings.row)
      : gmap (option string) Z :=
    foldr (fun r m =>
             let k := meter_readings.source r in
             <[k := default 0 (m !! k) + 1]> m) ∅ rows.

Definition max_received_at (rows : list meter_readings.row)
      : option string :=
    foldr (fun r acc =>
             let t := meter_readings.received_at r in
             match acc with
             | Some m => if String.leb m t then Some t else Some m
             | None => Some t
             end) None rows.

  (** Values of the statistics dict. *)
Inductive stat : Type :=
    | SInt (n : Z)
    | SFloat (x : pyfloat)
    | SText (s : option string)
    | SSources (m : gmap (option string) Z)
    | SDevices (l : list (string * string * string)).

  (** [get_statistics]: the dict of eight entries, or [{}] when anything
      in the body raised. *)
Definition get_statistics (db : Store) : result (list (string * stat)) :=
    match fault env with
    | Some _ => Return []
    | None =>
      let total_readings := Z.of_nat (length (readings db)) in
      let sources := count_by_source (readings db) in
      let last_24h :=
        Z.of_nat (length (List.filter
          (fun r => within_last_day env (meter_readings.received_at r))
          (readings db))) in
      let latest_timestamp := max_received_at (readings db) in
      let avg_per_hour :=
        if 0 <? last_24h then SFloat (py_round2 rt last_24h 24) else SInt 0 in
      let device_statuses :=
        (fun '(s, d) => (s, device_status.status d, device_status.last_seen d))
          <$> map_to_list (devices db) in
      let db_size := file_size env in
      Return
        [ ("total_readings", SInt total_readings);
          ("sources", SSources sources);
          ("last_24h_readings", SInt last_24h);
          ("latest_timestamp", SText latest_timestamp);
          ("avg_readings_per_hour", avg_per_hour);
          ("device_statuses", SDevices device_statuses);
          ("database_size_bytes", SInt db_size);
          ("database_size_mb", SFloat (py_round2 rt db_size (1024 * 1024))) ]
    end.

  (** [cleanup_old_data]: returns [cursor.rowcount]. *)
Definition cleanup_old_data (db : Store) (days_to_keep : Z)
      : result Z * Store :=
    match fault env with
    | Some e => (Raise e, db)
    | None =>
      let old r := older_than env days_to_keep (meter_readings.received_at r) in
      let deleted_count := Z.of_nat (length (List.filter old (readings db))) in
      (Return deleted_count,
       {| readings := List.filter (fun r => negb (old r)) (readings db);
          readings_seq := readings_seq db;
          devices := devices db;
          devices_seq := devices_seq db;
          logs := logs db;
          logs_seq := logs_seq db |})
    end.

  (** [date(received_at) BETWEEN ? AND ?] *)
Definition between_dates (start_date end_date : string)
      (r : meter_readings.row) : bool :=
    from_date start_date r && until_date end_date r.

Definition get_readings_by_date_range (db : Store)
      (start_date end_date : string) (source : option string)
      : result (list meter_readings.row) :=
    match fault env with
    | Some e => Raise e
    | None =>
      let rows :=
        List.filter
          (fun r => between_dates start_date end_date r
                    && source_clause source r)
          (readings db) in
      Return (merge_sort older_first rows)
    end.

  (** [log_system_event]: a failure is logged and dropped. *)
Definition log_system_event (db : Store)
      (level message : string) (module : option string)
      : result unit * Store :=
    match fault env with
    | Some _ => (Return tt, db)
    | None =>
      let entry :=
        {| system_logs.id := logs_seq db + 1;
           system_logs.level := level;
           system_logs.message := message;
           system_logs.module := module;
           system_logs.timestamp := current_timestamp env |} in
      (Return tt,
       {| readings := readings db;
          readings_seq := readings_seq db;
          devices := devices db;
          devices_seq := devices_seq db;
          logs := logs db ++ [entry];
          logs_seq := logs_seq db + 1 |})
    end.

  (** [update_device_status]: read the two counters, add the requested
      increments, replace the row.  A failure is logged and dropped. *)
Definition update_device_status (db : Store) (source status : string)
      (increment_boot increment_error : bool) : result unit * Store :=
    match fault env with
    | Some _ => (Return tt, db)
    | None =>
      let result := devices db !! source in
      let boot_count :=
        match result with Some d => device_status.boot_count d | None => 0 end
        + (if increment_boot then 1 else 0) in
      let error_count :=
        match result with Some d => device_status.error_count d | None => 0 end
        + (if increment_error then 1 else 0) in
      if negb (fits_int64 boot_count && fits_int64 error_count)
      then (Return tt, db)
      else
        let device :=
          {| device_status.id := devices_seq db + 1;
             device_status.last_seen := now env;
             device_status.status := status;
             device_status.boot_count := boot_count;
             device_status.error_count := error_count |} in
        (Return tt,
         {| readings := readings db;
            readings_seq := readings_seq db;
            devices := <[source := device]> (devices db);
            devices_seq := devices_seq db + 1;
            logs := logs db;
            logs_seq := logs_seq db |})
    end.

  (** [health_check]: [SELECT 1]. *)
Definition health_check (db : Store) : result bool :=
    match fault env with
    | Some _ => Return false
    | None => Return true
    end.

  (** [backup_database]: the value is the content written to
      [backup_path]. *)
Definition backup_database (db : Store) (backup_path : string)
      : result Store :=
    match fault env with
    | Some e => Raise e
    | None => Return db
    end.
End DatabaseManager.

(** ** [app.py] *)

(** The JSON body of a response (the [message], [timestamp] and
    [server_time] entries, which no caller branches on, are left out) and
    the CSV attachment of [/api/export]. *)
Inductive Body : Type :=
  | BOOT_ACK
  | OK (reading_id : Z)
  | Error (msg : string)
  | Readings (count : Z) (data : list meter_readings.row)
  | Csv (lines : list meter_readings.row)
  | Statistics (statistics : list (string * stat)).

(** A response: the body and the HTTP status code. *)
Definition Response : Type := Body * Z.

(** What the validation block leaves in scope for [insert_reading]. *)
Record Validated : Type := {
  volt_val : option pyfloat;
  curr_val : option pyfloat;
  pf_val : option pyfloat;
  load_val : option pyfloat;
  kwh_val : option pyfloat;
  freq_val : option pyfloat;
  retry_val : Z
}.

(** The range tests, as the conditions of the [raise] statements. *)
Definition voltage_out_of_range (x : pyfloat) : bool :=
  float_lt x 0 || float_gt x 500.

Definition current_out_of_range (x : pyfloat) : bool :=
  float_lt x 0 || float_gt x 1000.

Definition power_factor_out_of_range (x : pyfloat) : bool :=
  float_lt x 0 || float_gt x 1.

Definition load_negative (x : pyfloat) : bool := float_lt x 0.

Definition kwh_negative (x : pyfloat) : bool := float_lt x 0.

Definition frequency_out_of_range (x : pyfloat) : bool :=
  float_lt x 45 || float_gt x 65.

Section App.
Variable rt : Runtime.
Variable env : Env.

(** [float(text) if text else None] *)
Definition float_or_none (text : option string) : result (option pyfloat) :=
  match text with
  | Some s => if truthy text then x ← py_float rt s; Return (Some x)
              else Return None
  | None => Return None
  end.

(** [if val is not None and bad(val): raise ValueError(msg(val))] *)
Definition check (val : option pyfloat) (bad : pyfloat -> bool)
    (msg : pyfloat -> string) : result unit :=
  match val with
  | Some x => raise_if (bad x) (msg x)
  | None => Return tt
  end.

Definition voltage_msg (x : pyfloat) : string :=
  "Voltage " +:+ py_str rt x +:+ "V out of range (0-500V)".

Definition current_msg (x : pyfloat) : string :=
  "Current " +:+ py_str rt x +:+ "A out of range (0-1000A)".

Definition power_factor_msg (x : pyfloat) : string :=
  "Power Factor " +:+ py_str rt x +:+ " out of range (0-1)".

Definition load_msg (x : pyfloat) : string :=
  "Load " +:+ py_str rt x +:+ "kW cannot be negative".

Definition kwh_msg (x : pyfloat) : string :=
  "kWh " +:+ py_str rt x +:+ " cannot be negative".

Definition frequency_msg (x : pyfloat) : string :=
  "Frequency " +:+ py_str rt x +:+ "Hz out of range (45-65Hz)".

(** The body of the inner [try]: parse and range-check field after field;
    the first [ValueError] leaves the block. *)
Definition validate
    (voltage current power_factor load_kw kwh frequency : option string)
    (retry_count : string) : result Validated :=
  volt_val ← float_or_none voltage;
  check volt_val voltage_out_of_range voltage_msg;;
  curr_val ← float_or_none current;
  check curr_val current_out_of_range current_msg;;
  pf_val ← float_or_none power_factor;
  check pf_val power_factor_out_of_range power_factor_msg;;
  load_val ← float_or_none load_kw;
  check load_val load_negative load_msg;;
  kwh_val ← float_or_none kwh;
  check kwh_val kwh_negative kwh_msg;;
  freq_val ← float_or_none frequency;
  check freq_val frequency_out_of_range frequency_msg;;
  retry_val ← (if truthy (Some retry_count) then py_int rt retry_count
               else Return 0);
  Return {| volt_val := volt_val; curr_val := curr_val; pf_val := pf_val;
            load_val := load_val; kwh_val := kwh_val; freq_val := freq_val;
            retry_val := retry_val |}.

(** [source and 'boot' in source.lower()] *)
Definition is_boot_notification (source : string) : bool :=
  truthy (Some source) && contains "boot" (lower source).

(** The list built by the three [if not ...: missing_fields.append(...)]. *)
Definition missing_fields (voltage current kwh : option string)
    : list string :=
  (if truthy voltage then [] else ["v (voltage)"]) ++
  (if truthy current then [] else ["c (current)"]) ++
  (if truthy kwh then [] else ["k (kWh)"]).

(** [receive_meter_data], the [/meter] handler, from the parameters of
    the request on.  The outer [except Exception] of the handler (answer
    [Server error: ...], status 500) catches what is raised outside the
    two inner [try] blocks, that is, while [request.form] or
    [request.args] is read and in the [print] calls; both lie outside
    this function, whose results are about requests whose parameters
    were read. *)
Definition receive_meter_data (db : Store) (params : Params)
    : Response * Store :=
  let voltage := get params "v" in
  let current := get params "c" in
  let power_factor := get params "pf" in
  let load_kw := get params "l" in
  let kwh := get params "k" in
  let frequency := get params "f" in
  let datetime_str := get params "d" in
  let retry_count := get_default params "r" "0" in
  let source := get_default params "s" "" in
  if is_boot_notification source then ((BOOT_ACK, 200), db) else
  let missing := missing_fields voltage current kwh in
  match missing with
  | _ :: _ =>
    ((Error ("Missing required fields: " +:+ String.concat ", " missing), 400),
     db)
  | [] =>
    match validate voltage current power_factor load_kw kwh frequency
                   retry_count with
    | Raise e => ((Error ("Invalid data format: " +:+ e), 400), db)
    | Return v =>
      match insert_reading env db (volt_val v) (curr_val v) (pf_val v)
              (load_val v) (kwh_val v) (freq_val v) datetime_str
              (retry_val v) (Some source) with
      | (Raise e, db') => ((Error ("Database error: " +:+ e), 500), db')
      | (Return reading_id, db') => ((OK reading_id, 200), db')
      end
    end
  end.

(** [request.args.get('limit', 1000, type=int)] *)
Definition limit_arg (args : Params) : Z :=
  match get args "limit" with
  | Some s => match py_int rt s with Return n => n | Raise _ => 1000 end
  | None => 1000
  end.

(** [get_data], the [/api/data] handler. *)
Definition get_data (db : Store) (args : Params) : Response :=
  match get_readings rt env db (get args "source") (limit_arg args)
          (get args "start_date") (get args "end_date") with
  | Return readings => (Readings (Z.of_nat (length readings)) readings, 200)
  | Raise e => (Error e, 500)
  end.

(** The keys of [dict(row)] for a row of [SELECT * FROM meter_readings]:
    the twelve columns of the table. *)
Definition row_keys : list string :=
  ["id"; "voltage"; "current"; "power_factor"; "load_kw"; "kwh";
   "frequency"; "datetime_str"; "retry_count"; "source"; "received_at";
   "created_at"].

(** The [fieldnames] of the [csv.DictWriter] of [export_data]. *)
Definition fieldnames : list string :=
  ["id"; "voltage"; "current"; "power_factor"; "load_kw"; "kwh";
   "frequency"; "datetime_str"; "retry_count"; "source"; "received_at"].

(** [DictWriter.writerow] under the default [extrasaction='raise']: a
    dict with a key outside the field names raises [ValueError]. *)
Definition writerow (names keys : list string) (row : meter_readings.row)
    : result meter_readings.row :=
  match List.filter (fun k => negb (existsb (String.eqb k) names)) keys with
  | [] => Return row
  | wrong_fields =>
    Raise ("dict contains fields not in fieldnames: " +:+
           String.concat ", " (map (fun k => "'" +:+ k +:+ "'") wrong_fields))
  end.

(** [for reading in readings: writer.writerow(reading)] *)
Fixpoint write_rows (readings : list meter_readings.row)
    : result (list meter_readings.row) :=
  match readings with
  | [] => Return []
  | reading :: rest =>
    line ← writerow fieldnames row_keys reading;
    lines ← write_rows rest;
    Return (line :: lines)
  end.

(** [export_data], the [/api/export] handler: [get_readings] is called
    without [limit], so with its default [limit=1000]; the rows are then
    written through the [DictWriter]; any exception gives status 500. *)
Definition export_data (db : Store) (args : Params) : Response :=
  match get_readings rt env db (get args "source") 1000
          (get args "start_date") (get args "end_date") with
  | Return readings =>
    match write_rows readings with
    | Return lines => (Csv lines, 200)
    | Raise e => (Error e, 500)
    end
  | Raise e => (Error e, 500)
  end.

(** [get_stats], the [/api/stats] handler. *)
Definition get_stats (db : Store) : Response :=
  match get_statistics rt env db with
  | Return stats => (Statistics stats, 200)
  | Raise e => (Error e, 500)
  end.
End App.

(** ** A runtime to execute the model

    Executable stand-ins for the builtins on a fragment of their domain:
    plain decimal literals ([-12], [230.5]), [nan] and [inf]; ISO timestamps
    whose first ten characters are the date.  They serve to run the handlers
    on concrete requests; no general theorem depends on them. *)
Module Reference.

Definition digit (c : Ascii.ascii) : option Z :=
  let n := Ascii.N_of_ascii c in
  if ((48 <=? n) && (n <=? 57))%N then Some (Z.of_N n - 48) else None.

Fixpoint digits (acc : Z) (s : string) : option Z :=
  match s with
  | EmptyString => Some acc
  | String c s' => d ← digit c; digits (10 * acc + d) s'
  end.

Definition number (s : string) : option Z :=
  match s with
  | EmptyString => None
  | _ => digits 0 s
  end.

Fixpoint split_dot (s : string) : string * option string :=
  match s with
  | EmptyString => (EmptyString, None)
  | String c s' =>
    if Ascii.eqb c "."%char then (EmptyString, Some s')
    else let '(a, b) := split_dot s' in (String c a, b)
  end.

Definition unsigned_decimal (s : string) : option Q :=
  let '(whole, frac) := split_dot s in
  match frac with
  | None => n ← number whole; Some (inject_Z n)
  | Some f =>
    n ← number whole; m ← number f;
    Some (inject_Z n + Qmake m (Pos.of_nat (Nat.pow 10 (String.length f))))%Q
  end.

Definition signed {A} (neg : A -> A) (parse : string -> option A)
    (s : string) : option A :=
  match s with
  | String "-"%char s' => neg <$> parse s'
  | String "+"%char s' => parse s'
  | _ => parse s
  end.

Definition float (s : string) : result pyfloat :=
  let l := lower s in
  if String.eqb l "nan" then Return NaN
  else if String.eqb l "inf" || String.eqb l "infinity" then Return Infinity
  else if String.eqb l "-inf" || String.eqb l "-infinity"
  then Return NegInfinity
  else match signed Qopp unsigned_decimal s with
       | Some q => Return (Finite q)
       | None => Raise ("could not convert string to float: '" +:+ s +:+ "'")
       end.

Definition int (s : string) : result Z :=
  match signed Z.opp number s with
  | Some n => Return n
  | None => Raise ("invalid literal for int() with base 10: '" +:+ s +:+ "'")
  end.

Definition nat_str (n : Z) : string :=
  NilZero.string_of_uint (N.to_uint (Z.to_N n)).

Fixpoint fraction (fuel : nat) (r d : Z) : string :=
  match fuel with
  | O => EmptyString
  | S fuel' =>
    if r =? 0 then EmptyString
    else nat_str (10 * r / d) +:+ fraction fuel' (10 * r mod d) d
  end.

Definition str (x : pyfloat) : string :=
  match x with
  | NaN => "nan"
  | Infinity => "inf"
  | NegInfinity => "-inf"
  | Finite q =>
    let a := Z.abs (Qnum q) in
    let d := Z.pos (Qden q) in
    let f := fraction 17 (a mod d) d in
    (if Qnum q <? 0 then "-" else "") +:+ nat_str (a / d) +:+ "." +:+
    (if String.eqb f "" then "0" else f)
  end.

Definition round2 (a b : Z) : pyfloat :=
  Finite (Qmake ((200 * a + b) / (2 * b)) 100).

Definition date (x : string) : option string :=
  if (10 <=? String.length x)%nat then Some (String.substring 0 10 x) else None.

Definition runtime : Runtime :=
  {| py_float := float; py_int := int; py_str := str;
     py_round2 := round2; sql_date := date |}.

(** A call at the given clock reading in which sqlite3 does not fail. *)
Definition at_time (t : string) : Env :=
  {| now := t; current_timestamp := t; fault := None;
     within_last_day := fun _ => true; older_than := fun _ _ => false;
     file_size := 4096 |}.

(** The same call with the sqlite3 layer raising [e]. *)
Definition failing (t e : string) : Env :=
  {| now := t; current_timestamp := t; fault := Some e;
     within_last_day := fun _ => true; older_than := fun _ _ => false;
     file_size := 4096 |}.

End Reference.

(** * Vocabulary of the properties *)

(** ** Letter case, required fields, fields of the validator *)

(** [str.upper()] on one byte, to spell the letter cases of a word. *)
Definition upper_ascii (c : Ascii.ascii) : Ascii.ascii :=
  let n := Ascii.N_of_ascii c in
  if ((97 <=? n) && (n <=? 122))%N then Ascii.ascii_of_N (n - 32) else c.

(** [w] spells the lower-case word [pat], each letter in either case. *)
Fixpoint spells (pat w : string) : Prop :=
  match pat, w with
  | EmptyString, EmptyString => True
  | String p pat', String c w' => (c = p \/ c = upper_ascii p) /\ spells pat' w'
  | _, _ => False
  end.

(** [s] contains [pat] as a substring, in any letter case. *)
Definition contains_any_case (pat s : string) : Prop :=
  exists pre w suf, s = pre +:+ w +:+ suf /\ spells pat w.

Definition lowercase_letter (c : Ascii.ascii) : Prop :=
  (97 <= Ascii.N_of_ascii c <= 122)%N.

Fixpoint lowercase_word (pat : string) : Prop :=
  match pat with
  | EmptyString => True
  | String p pat' => lowercase_letter p /\ lowercase_word pat'
  end.

(** A parameter is absent or empty exactly when Python finds it falsy. *)
Definition absent_or_empty (x : option string) : Prop :=
  x = None \/ x = Some EmptyString.

(** The numeric fields, in the order the [try] block treats them. *)
Inductive field : Type :=
  | Voltage | Current | PowerFactor | LoadKw | Kwh | Frequency | RetryCount.

Definition check_order : list field :=
  [Voltage; Current; PowerFactor; LoadKw; Kwh; Frequency; RetryCount].

(** The text the handler extracts for a field. *)
Definition field_text (params : Params) (f : field) : option string :=
  match f with
  | Voltage => get params "v"
  | Current => get params "c"
  | PowerFactor => get params "pf"
  | LoadKw => get params "l"
  | Kwh => get params "k"
  | Frequency => get params "f"
  | RetryCount => Some (get_default params "r" "0")
  end.

(** The first [Some] that [g] yields along a list. *)
Fixpoint first_some {A B} (g : A -> option B) (l : list A) : option B :=
  match l with
  | [] => None
  | a :: l' => match g a with Some b => Some b | None => first_some g l' end
  end.

Section FieldErrors.
Variable rt : Runtime.

(** The [ValueError] a float field raises on its own text, if any: the
    one of [float(text)], or the one of its range test. *)
Definition float_error (bad : pyfloat -> bool) (msg : pyfloat -> string)
    (text : option string) : option string :=
  match text with
  | Some s =>
    if truthy text then
      match py_float rt s with
      | Raise e => Some e
      | Return x => if bad x then Some (msg x) else None
      end
    else None
  | None => None
  end.

(** The [ValueError] of [int(retry_count)], if any. *)
Definition int_error (text : option string) : option string :=
  match text with
  | Some s =>
    if truthy text then
      match py_int rt s with Raise e => Some e | Return _ => None end
    else None
  | None => None
  end.

Definition field_error (f : field) (text : option string) : option string :=
  match f with
  | Voltage => float_error voltage_out_of_range (voltage_msg rt) text
  | Current => float_error current_out_of_range (current_msg rt) text
  | PowerFactor =>
    float_error power_factor_out_of_range (power_factor_msg rt) text
  | LoadKw => float_error load_negative (load_msg rt) text
  | Kwh => float_error kwh_negative (kwh_msg rt) text
  | Frequency => float_error frequency_out_of_range (frequency_msg rt) text
  | RetryCount => int_error text
  end.

(** The error of the first field, in check order, that has one. *)
Definition first_error (params : Params) : option string :=
  first_some (fun f => field_error f (field_text params f)) check_order.

(** A submission fails validation when the handler gets as far as
    validating it (it is no boot notification) and a required field is
    missing or a numeric field has an error. *)
Definition fails_validation (params : Params) : Prop :=
  ~ contains_any_case "boot" (get_default params "s" "") /\
  ((absent_or_empty (get params "v") \/ absent_or_empty (get params "c")
    \/ absent_or_empty (get params "k"))
   \/ exists f, is_Some (field_error f (field_text params f))).

(** The range the value of a field has to lie in, read mathematically. *)
Definition in_its_range (f : field) (x : pyfloat) : Prop :=
  match f with
  | Voltage => in_range 0 500 x
  | Current => in_range 0 1000 x
  | PowerFactor => in_range 0 1 x
  | LoadKw => at_least 0 x
  | Kwh => at_least 0 x
  | Frequency => in_range 45 65 x
  | RetryCount => True
  end.

(** The text of a field is no numeric literal: [float], or [int] for the
    retry count, raises on it. *)
Definition unparseable (f : field) (text : string) : Prop :=
  match f with
  | RetryCount => exists e, py_int rt text = Raise e
  | _ => exists e, py_float rt text = Raise e
  end.

(** The text of a float field is a number, not NaN, outside the range of
    the field. *)
Definition out_of_range (f : field) (text : string) : Prop :=
  f <> RetryCount /\
  exists x, py_float rt text = Return x /\ x <> NaN /\ ~ in_its_range f x.

(** A submission that is no boot notification and has a required field
    missing, or a field given with a text that does not parse or with a
    number out of range. *)
Definition invalid_submission (params : Params) : Prop :=
  ~ contains_any_case "boot" (get_default params "s" "") /\
  ((absent_or_empty (get params "v") \/ absent_or_empty (get params "c")
    \/ absent_or_empty (get params "k"))
   \/ exists f text,
        field_text params f = Some text /\ text <> "" /\
        (unparseable f text \/ out_of_range f text)).

End FieldErrors.

(** ** Selections and operation sequences *)

Section Selection.
Variable rt : Runtime.

(** The rows a date range with an optional source selects. *)
Definition date_within (start_date end_date : string)
    (r : meter_readings.row) : Prop :=
  exists d, sql_date rt (meter_readings.received_at r) = Some d /\
            String.le start_date d /\ String.le d end_date.

Definition source_matches (source : option string)
    (r : meter_readings.row) : Prop :=
  match source with
  | None => True
  | Some s => s = "" \/ s = "All" \/ meter_readings.source r = Some s
  end.

End Selection.

(** What can write to the store in normal operation: a request to
    [/meter] (a reading or a boot notification) and a call of
    [update_device_status]. *)
Inductive operation : Type :=
  | Meter (params : Params)
  | UpdateDeviceStatus (source status : string)
      (increment_boot increment_error : bool).

Definition apply (rt : Runtime) (db : Store) (step : Env * operation)
    : Store :=
  match step with
  | (env, Meter params) => snd (receive_meter_data rt env db params)
  | (env, UpdateDeviceStatus source status ib ie) =>
    snd (update_device_status env db source status ib ie)
  end.

Definition run (rt : Runtime) (steps : list (Env * operation)) (db : Store)
    : Store :=
  foldl (apply rt) db steps.

(** ** Sample requests and stores *)

Module Sample.
Import Reference.

Definition t1 : string := "2025-07-26T13:05:31.000001".
Definition t2 : string := "2025-07-27T08:15:00.250000".

(** The request of [/test]'s [sample_urls]. *)
Definition reading_request : Params :=
  [("v", "230.5"); ("c", "8.750"); ("pf", "0.92"); ("l", "2.01560");
   ("k", "1250.75"); ("f", "50.2"); ("d", "26-07-2025 13:05:30");
   ("r", "0"); ("s", "atmega328pb")].

(** A boot notification: no [v], [c], [k]. *)
Definition boot_request : Params :=
  [("s", "BOOT-atmega328pb"); ("d", "26-07-2025 13:00:02"); ("r", "3")].

(** Voltage out of range and current unparseable. *)
Definition bad_request : Params :=
  [("v", "600"); ("c", "abc"); ("k", "1250.75"); ("s", "atmega328pb")].

Definition one_reading : Store :=
  snd (receive_meter_data runtime (at_time t1) empty_store reading_request).

Definition two_readings : Store :=
  snd (receive_meter_data runtime (at_time t2) one_reading reading_request).

Definition july : Params :=
  [("start_date", "2025-07-01"); ("end_date", "2025-07-31")].

(** Calls on two days with sqlite3 working, and one with the disk full. *)
Definition on_the_26th : Env := at_time t1.
Definition on_the_27th : Env := at_time t2.
Definition disk_full : Env := failing t2 "database or disk is full".

End Sample.

(** * The rest of the code *)

(** ** Every writer of the store

    The calls that can change the database file: a request to [/meter]
    and the writing methods of [DatabaseManager]. *)
Inductive call : Type :=
  | Call_meter (params : Params)
  | Call_insert_reading
      (voltage current power_factor load_kw kwh frequency : option pyfloat)
      (datetime_str : option string) (retry_count : Z)
      (source : option string)
  | Call_cleanup_old_data (days_to_keep : Z)
  | Call_update_device_status (source status : string)
      (increment_boot increment_error : bool)
  | Call_log_system_event (level message : string) (module : option string).

Definition perform (rt : Runtime) (db : Store) (step : Env * call) : Store :=
  match step with
  | (env, Call_meter params) => snd (receive_meter_data rt env db params)
  | (env, Call_insert_reading v c pf l k f d r s) =>
    snd (insert_reading env db v c pf l k f d r s)
  | (env, Call_cleanup_old_data days) => snd (cleanup_old_data env db days)
  | (env, Call_update_device_status source status ib ie) =>
    snd (update_device_status env db source status ib ie)
  | (env, Call_log_system_event level message module) =>
    snd (log_system_event env db level message module)
  end.

(** The store after a sequence of calls on a fresh database. *)
Definition history (rt : Runtime) (steps : list (Env * call)) : Store :=
  foldl (perform rt) empty_store steps.

(** ** The filters of [get_readings], read as propositions *)

Section Filters.
Variable rt : Runtime.

(** [start_date] absent or empty, or [date(received_at) >= start_date]. *)
Definition since (start_date : option string) (r : meter_readings.row)
    : Prop :=
  match start_date with
  | None => True
  | Some d =>
    d = "" \/
    exists x, sql_date rt (meter_readings.received_at r) = Some x /\
              String.le d x
  end.

(** [end_date] absent or empty, or [date(received_at) <= end_date]. *)
Definition up_to (end_date : option string) (r : meter_readings.row)
    : Prop :=
  match end_date with
  | None => True
  | Some d =>
    d = "" \/
    exists x, sql_date rt (meter_readings.received_at r) = Some x /\
              String.le x d
  end.

(** The stored readings a call of [get_readings] asks for. *)
Definition requested (db : Store) (source start_date end_date : option string)
    (r : meter_readings.row) : Prop :=
  r ∈ readings db /\ source_matches source r /\ since start_date r
  /\ up_to end_date r.
End Filters.

(** The number of readings of a source. *)
Definition readings_of (source : option string)
    (rows : list meter_readings.row) : nat :=
  length (List.filter
            (fun r => bool_decide (meter_readings.source r = source)) rows).

(** The ranges a reading accepted by [/meter] keeps once stored. *)
Definition within (ok : pyfloat -> Prop) (x : option pyfloat) : Prop :=
  match x with
  | Some v => ok v
  | None => True
  end.

Definition plausible (r : meter_readings.row) : Prop :=
  within (in_range 0 500) (meter_readings.voltage r) /\
  within (in_range 0 1000) (meter_readings.current r) /\
  within (in_range 0 1) (meter_readings.power_factor r) /\
  within (at_least 0) (meter_readings.load_kw r) /\
  within (at_least 0) (meter_readings.kwh r) /\
  within (in_range 45 65) (meter_readings.frequency r) /\
  fits_int64 (meter_readings.retry_count r) = true.

(** ** [config.py] *)

(** [s.split(sep)] for a one-character separator. *)
Fixpoint split (sep : Ascii.ascii) (s : string) : list string :=
  match s with
  | EmptyString => [EmptyString]
  | String c s' =>
    if Ascii.eqb c sep then EmptyString :: split sep s'
    else match split sep s' with
         | piece :: pieces => String c piece :: pieces
         | [] => [String c EmptyString]
         end
  end.

(** The attributes of a configuration class; [TESTING] exists on
    [TestingConfig] only. *)
Record config : Type := {
  SECRET_KEY : string;
  DEBUG : bool;
  HOST : string;
  PORT : Z;
  DATABASE_PATH : string;
  DATABASE_BACKUP_INTERVAL : Z;
  DATABASE_CLEANUP_DAYS : Z;
  LOG_LEVEL : string;
  LOG_FILE : string;
  LOG_MAX_BYTES : Z;
  LOG_BACKUP_COUNT : Z;
  VOLTAGE_RANGE : Z * Z;
  CURRENT_RANGE : Z * Z;
  POWER_FACTOR_RANGE : Z * Z;
  LOAD_MIN : Z;
  KWH_MIN : Z;
  FREQUENCY_RANGE : Z * Z;
  EMISSION_FACTOR : pyfloat;
  RATE_LIMIT_ENABLED : bool;
  RATE_LIMIT_PER_MINUTE : Z;
  CORS_ORIGINS : list string;
  MAX_CONTENT_LENGTH : Z;
  API_VERSION : string;
  MAX_QUERY_LIMIT : Z;
  DEFAULT_QUERY_LIMIT : Z;
  TESTING : option bool
}.

Section Configuration.
Variable rt : Runtime.
(** [os.environ] *)
Variable environ : Params.

(** [int(os.environ.get(key, dflt))] with an integer default. *)
Definition environ_int (key : string) (dflt : Z) : result Z :=
  match get environ key with
  | Some s => py_int rt s
  | None => Return dflt
  end.

(** [float(os.environ.get(key, dflt))] with a float default. *)
Definition environ_float (key : string) (dflt : pyfloat) : result pyfloat :=
  match get environ key with
  | Some s => py_float rt s
  | None => Return dflt
  end.

(** [os.environ.get(key, dflt).lower() == 'true'] *)
Definition environ_flag (key dflt : string) : bool :=
  String.eqb (lower (get_default environ key dflt)) "true".

(** The class body of [Config], evaluated top to bottom when the module is
    imported; the first conversion that raises aborts the import.  The
    default [0.82] is the double nearest to it. *)
Definition Config : result config :=
  let secret_key :=
    if truthy (get environ "SECRET_KEY")
    then get_default environ "SECRET_KEY" ""
    else "smart-energy-meter-secret-key-2025" in
  let debug := environ_flag "FLASK_DEBUG" "False" in
  let host := get_default environ "FLASK_HOST" "0.0.0.0" in
  port ← environ_int "FLASK_PORT" 8080;
  let database_path := get_default environ "DATABASE_PATH" "data/meter_data.db" in
  backup_interval ← environ_int "DATABASE_BACKUP_INTERVAL" 3600;
  cleanup_days ← environ_int "DATABASE_CLEANUP_DAYS" 30;
  let log_level := get_default environ "LOG_LEVEL" "INFO" in
  let log_file := get_default environ "LOG_FILE" "data/logs/flask_app.log" in
  log_max_bytes ← environ_int "LOG_MAX_BYTES" 10485760;
  log_backup_count ← environ_int "LOG_BACKUP_COUNT" 5;
  emission_factor ←
    environ_float "EMISSION_FACTOR"
      (Finite (Qmake 7385903388887613 9007199254740992));
  let rate_limit_enabled := environ_flag "RATE_LIMIT_ENABLED" "True" in
  rate_limit_per_minute ← environ_int "RATE_LIMIT_PER_MINUTE" 60;
  let cors_origins := split "," (get_default environ "CORS_ORIGINS" "*") in
  max_content_length ← environ_int "MAX_CONTENT_LENGTH" 1048576;
  let api_version := get_default environ "API_VERSION" "v1" in
  max_query_limit ← environ_int "MAX_QUERY_LIMIT" 10000;
  default_query_limit ← environ_int "DEFAULT_QUERY_LIMIT" 1000;
  Return
    {| SECRET_KEY := secret_key; DEBUG := debug; HOST := host; PORT := port;
       DATABASE_PATH := database_path;
       DATABASE_BACKUP_INTERVAL := backup_interval;
       DATABASE_CLEANUP_DAYS := cleanup_days;
       LOG_LEVEL := log_level; LOG_FILE := log_file;
       LOG_MAX_BYTES := log_max_bytes;
       LOG_BACKUP_COUNT := log_backup_count;
       VOLTAGE_RANGE := (0, 500); CURRENT_RANGE := (0, 1000);
       POWER_FACTOR_RANGE := (0, 1); LOAD_MIN := 0; KWH_MIN := 0;
       FREQUENCY_RANGE := (45, 65);
       EMISSION_FACTOR := emission_factor;
       RATE_LIMIT_ENABLED := rate_limit_enabled;
       RATE_LIMIT_PER_MINUTE := rate_limit_per_minute;
       CORS_ORIGINS := cors_origins;
       MAX_CONTENT_LENGTH := max_content_length;
       API_VERSION := api_version;
       MAX_QUERY_LIMIT := max_query_limit;
       DEFAULT_QUERY_LIMIT := default_query_limit;
       TESTING := None |}.

(** A subclass: the attributes of its base with some overridden. *)
Definition set_DEBUG (v : bool) (c : config) : config :=
  {| SECRET_KEY := SECRET_KEY c; DEBUG := v; HOST := HOST c; PORT := PORT c;
     DATABASE_PATH := DATABASE_PATH c;
     DATABASE_BACKUP_INTERVAL := DATABASE_BACKUP_INTERVAL c;
     DATABASE_CLEANUP_DAYS := DATABASE_CLEANUP_DAYS c;
     LOG_LEVEL := LOG_LEVEL c; LOG_FILE := LOG_FILE c;
     LOG_MAX_BYTES := LOG_MAX_BYTES c;
     LOG_BACKUP_COUNT := LOG_BACKUP_COUNT c;
     VOLTAGE_RANGE := VOLTAGE_RANGE c; CURRENT_RANGE := CURRENT_RANGE c;
     POWER_FACTOR_RANGE := POWER_FACTOR_RANGE c; LOAD_MIN := LOAD_MIN c;
     KWH_MIN := KWH_MIN c; FREQUENCY_RANGE := FREQUENCY_RANGE c;
     EMISSION_FACTOR := EMISSION_FACTOR c;
     RATE_LIMIT_ENABLED := RATE_LIMIT_ENABLED c;
     RATE_LIMIT_PER_MINUTE := RATE_LIMIT_PER_MINUTE c;
     CORS_ORIGINS := CORS_ORIGINS c;
     MAX_CONTENT_LENGTH := MAX_CONTENT_LENGTH c;
     API_VERSION := API_VERSION c;
     MAX_QUERY_LIMIT := MAX_QUERY_LIMIT c;
     DEFAULT_QUERY_LIMIT := DEFAULT_QUERY_LIMIT c;
     TESTING := TESTING c |}.

Definition set_LOG_LEVEL (v : string) (c : config) : config :=
  {| SECRET_KEY := SECRET_KEY c; DEBUG := DEBUG c; HOST := HOST c;
     PORT := PORT c; DATABASE_PATH := DATABASE_PATH c;
     DATABASE_BACKUP_INTERVAL := DATABASE_BACKUP_INTERVAL c;
     DATABASE_CLEANUP_DAYS := DATABASE_CLEANUP_DAYS c;
     LOG_LEVEL := v; LOG_FILE := LOG_FILE c;
     LOG_MAX_BYTES := LOG_MAX_BYTES c;
     LOG_BACKUP_COUNT := LOG_BACKUP_COUNT c;
     VOLTAGE_RANGE := VOLTAGE_RANGE c; CURRENT_RANGE := CURRENT_RANGE c;
     POWER_FACTOR_RANGE := POWER_FACTOR_RANGE c; LOAD_MIN := LOAD_MIN c;
     KWH_MIN := KWH_MIN c; FREQUENCY_RANGE := FREQUENCY_RANGE c;
     EMISSION_FACTOR := EMISSION_FACTOR c;
     RATE_LIMIT_ENABLED := RATE_LIMIT_ENABLED c;
     RATE_LIMIT_PER_MINUTE := RATE_LIMIT_PER_MINUTE c;
     CORS_ORIGINS := CORS_ORIGINS c;
     MAX_CONTENT_LENGTH := MAX_CONTENT_LENGTH c;
     API_VERSION := API_VERSION c;
     MAX_QUERY_LIMIT := MAX_QUERY_LIMIT c;
     DEFAULT_QUERY_LIMIT := DEFAULT_QUERY_LIMIT c;
     TESTING := TESTING c |}.

Definition set_rate_limit (enabled : bool) (per_minute : Z) (c : config)
    : config :=
  {| SECRET_KEY := SECRET_KEY c; DEBUG := DEBUG c; HOST := HOST c;
     PORT := PORT c; DATABASE_PATH := DATABASE_PATH c;
     DATABASE_BACKUP_INTERVAL := DATABASE_BACKUP_INTERVAL c;
     DATABASE_CLEANUP_DAYS := DATABASE_CLEANUP_DAYS c;
     LOG_LEVEL := LOG_LEVEL c; LOG_FILE := LOG_FILE c;
     LOG_MAX_BYTES := LOG_MAX_BYTES c;
     LOG_BACKUP_COUNT := LOG_BACKUP_COUNT c;
     VOLTAGE_RANGE := VOLTAGE_RANGE c; CURRENT_RANGE := CURRENT_RANGE c;
     POWER_FACTOR_RANGE := POWER_FACTOR_RANGE c; LOAD_MIN := LOAD_MIN c;
     KWH_MIN := KWH_MIN c; FREQUENCY_RANGE := FREQUENCY_RANGE c;
     EMISSION_FACTOR := EMISSION_FACTOR c;
     RATE_LIMIT_ENABLED := enabled;
     RATE_LIMIT_PER_MINUTE := per_minute;
     CORS_ORIGINS := CORS_ORIGINS c;
     MAX_CONTENT_LENGTH := MAX_CONTENT_LENGTH c;
     API_VERSION := API_VERSION c;
     MAX_QUERY_LIMIT := MAX_QUERY_LIMIT c;
     DEFAULT_QUERY_LIMIT := DEFAULT_QUERY_LIMIT c;
     TESTING := TESTING c |}.

Definition set_testing (database_path : string) (c : config) : config :=
  {| SECRET_KEY := SECRET_KEY c; DEBUG := DEBUG c; HOST := HOST c;
     PORT := PORT c; DATABASE_PATH := database_path;
     DATABASE_BACKUP_INTERVAL := DATABASE_BACKUP_INTERVAL c;
     DATABASE_CLEANUP_DAYS := DATABASE_CLEANUP_DAYS c;
     LOG_LEVEL := LOG_LEVEL c; LOG_FILE := LOG_FILE c;
     LOG_MAX_BYTES := LOG_MAX_BYTES c;
     LOG_BACKUP_COUNT := LOG_BACKUP_COUNT c;
     VOLTAGE_RANGE := VOLTAGE_RANGE c; CURRENT_RANGE := CURRENT_RANGE c;
     POWER_FACTOR_RANGE := POWER_FACTOR_RANGE c; LOAD_MIN := LOAD_MIN c;
     KWH_MIN := KWH_MIN c; FREQUENCY_RANGE := FREQUENCY_RANGE c;
     EMISSION_FACTOR := EMISSION_FACTOR c;
     RATE_LIMIT_ENABLED := RATE_LIMIT_ENABLED c;
     RATE_LIMIT_PER_MINUTE := RATE_LIMIT_PER_MINUTE c;
     CORS_ORIGINS := CORS_ORIGINS c;
     MAX_CONTENT_LENGTH := MAX_CONTENT_LENGTH c;
     API_VERSION := API_VERSION c;
     MAX_QUERY_LIMIT := MAX_QUERY_LIMIT c;
     DEFAULT_QUERY_LIMIT := DEFAULT_QUERY_LIMIT c;
     TESTING := Some true |}.

Definition DevelopmentConfig (base : config) : config :=
  set_LOG_LEVEL "DEBUG" (set_DEBUG true base).

Definition ProductionConfig (base : config) : config :=
  set_rate_limit true 30 (set_LOG_LEVEL "WARNING" (set_DEBUG false base)).

Definition TestingConfig (base : config) : config :=
  set_LOG_LEVEL "DEBUG" (set_testing ":memory:" base).

(** [config_map], a dict from environment names to classes. *)
Definition config_map (base : config) : list (string * config) :=
  [("development", DevelopmentConfig base);
   ("production", ProductionConfig base);
   ("testing", TestingConfig base);
   ("default", DevelopmentConfig base)].

Fixpoint dict_get {V} (d : list (string * V)) (key : string) (dflt : V) : V :=
  match d with
  | [] => dflt
  | (k, v) :: rest => if String.eqb k key then v else dict_get rest key dflt
  end.

(** [get_config(env_name)], in a process where the module was imported. *)
Definition get_config (env_name : string) : result config :=
  base ← Config;
  Return (dict_get (config_map base) env_name (DevelopmentConfig base)).
End Configuration.

(** ** Invariants of the store *)

(** Rows lie in the order of their ids, each id positive and no larger than
    the last one [AUTOINCREMENT] handed out. *)
Definition before (r1 r2 : meter_readings.row) : Prop :=
  meter_readings.id r1 < meter_readings.id r2.

Definition ids_in_order (db : Store) : Prop :=
  0 <= readings_seq db /\
  StronglySorted before (readings db) /\
  Forall (fun r => 0 < meter_readings.id r <= readings_seq db) (readings db).

(** Every stored reading names a source, and the source has its row in
    [device_status]. *)
Definition sources_tracked (db : Store) : Prop :=
  forall r, r ∈ readings db ->
    exists s, meter_readings.source r = Some s /\ is_Some (devices db !! s).

(** ** Device counters over a series of status updates *)

(** The counters [update_device_status] reads: those of the row, 0 without
    a row. *)
Definition stored_boot_count (db : Store) (source : string) : Z :=
  match devices db !! source with
  | Some d => device_status.boot_count d
  | None => 0
  end.

Definition stored_error_count (db : Store) (source : string) : Z :=
  match devices db !! source with
  | Some d => device_status.error_count d
  | None => 0
  end.

(** A series of calls of [update_device_status] for one source, each with
    its environment, status and two flags. *)
Definition status_updates (source : string) (db : Store)
    (updates : list (Env * string * bool * bool)) : Store :=
  foldl (fun db '(env, status, increment_boot, increment_error) =>
           snd (update_device_status env db source status
                  increment_boot increment_error))
        db updates.

Definition boots (updates : list (Env * string * bool * bool)) : Z :=
  Z.of_nat (length (List.filter (fun '(_, _, ib, _) => ib) updates)).

Definition errors (updates : list (Env * string * bool * bool)) : Z :=
  Z.of_nat (length (List.filter (fun '(_, _, _, ie) => ie) updates)).

(** The settings [Config] converts with [int], in the order of the class
    body. *)
Definition int_settings : list string :=
  ["FLASK_PORT"; "DATABASE_BACKUP_INTERVAL"; "DATABASE_CLEANUP_DAYS";
   "LOG_MAX_BYTES"; "LOG_BACKUP_COUNT"; "RATE_LIMIT_PER_MINUTE";
   "MAX_CONTENT_LENGTH"; "MAX_QUERY_LIMIT"; "DEFAULT_QUERY_LIMIT"].

(** The environment gives every numeric setting it sets a value that
    converts. *)
Definition numbers_convert (rt : Runtime) (environ : Params) : Prop :=
  (forall key s, key ∈ int_settings -> get environ key = Some s ->
                 exists n, py_int rt s = Return n) /\
  (forall s, get environ "EMISSION_FACTOR" = Some s ->
             exists x, py_float rt s = Return x).

(** ** Further samples *)

Module Scenario.
Import Reference Sample.

(** A cleanup on the 27th for which the readings of the 26th are old. *)
Definition purge : Env :=
  {| now := t2; current_timestamp := t2; fault := None;
     within_last_day := fun t => String.leb "2025-07-26T08:15:00" t;
     older_than := fun _ t => String.ltb t "2025-07-27";
     file_size := 8192 |}.

(** Three status updates of one device: two boots, one error. *)
Definition three_updates : list (Env * string * bool * bool) :=
  [(on_the_26th, "online", true, false);
   (on_the_26th, "degraded", false, true);
   (on_the_27th, "online", true, false)].

(** A first insert, a cleanup that deletes it, a second insert. *)
Definition after_first_insert : Store :=
  snd (insert_reading on_the_26th empty_store (Some (Finite 230.5)) None None
         None None None None 0 (Some "atmega328pb")).

Definition after_second_insert : Store :=
  snd (insert_reading on_the_27th
         (foldl (perform runtime) after_first_insert
            [(purge, Call_cleanup_old_data 30)])
         (Some (Finite 231)) None None None None None None 0
         (Some "atmega328pb")).

(** The store after the cleanup of the 27th. *)
Definition purged : Store := snd (cleanup_old_data purge two_readings 30).

(** An environment that sets the port and the debug flag. *)
Definition environ : Params :=
  [("FLASK_PORT", "5000"); ("FLASK_DEBUG", "TRUE")].

End Scenario.

(** * Properties *)

(** ** Substring search and letter case *)

Lemma app_nil (s : string) : EmptyString +:+ s = s.
Proof. reflexivity. Qed.

Lemma app_cons (c : Ascii.ascii) (a b : string) :
  String c a +:+ b = String c (a +:+ b).
Proof. reflexivity. Qed.

Lemma prefix_nil (s : string) : String.prefix EmptyString s = true.
Proof. now destruct s. Qed.

Lemma prefix_app (pat suf : string) : String.prefix pat (pat +:+ suf) = true.
Proof.
  induction pat as [|c pat IH].
  - apply prefix_nil.
  - rewrite app_cons. simpl.
    destruct (Ascii.ascii_dec c c); [exact IH | congruence].
Qed.

Lemma contains_unfold (pat s : string) :
  contains pat s =
  String.prefix pat s ||
  match s with EmptyString => false | String _ s' => contains pat s' end.
Proof. now destruct s. Qed.

Lemma contains_app (pat pre suf : string) :
  contains pat (pre +:+ pat +:+ suf) = true.
Proof.
  induction pre as [|c pre IH].
  - rewrite app_nil, contains_unfold, prefix_app. reflexivity.
  - rewrite app_cons, contains_unfold, IH. apply orb_true_r.
Qed.

Lemma lower_app (a b : string) : lower (a +:+ b) = lower a +:+ lower b.
Proof.
  induction a as [|c a IH]; [reflexivity|].
  rewrite app_cons. simpl. now rewrite IH, app_cons.
Qed.

Lemma lower_upper_ascii (p : Ascii.ascii) :
  lowercase_letter p -> lower_ascii p = p /\ lower_ascii (upper_ascii p) = p.
Proof.
  destruct p as [[] [] [] [] [] [] [] []]; unfold lowercase_letter;
    vm_compute; intros [H1 H2]; try (split; reflexivity);
    exfalso; auto.
Qed.

Lemma lower_ascii_inv (c p : Ascii.ascii) :
  lowercase_letter p -> lower_ascii c = p -> c = p \/ c = upper_ascii p.
Proof.
  intros Hp <-. revert Hp.
  destruct c as [[] [] [] [] [] [] [] []]; unfold lowercase_letter;
    vm_compute; intros [H1 H2]; auto; exfalso; auto.
Qed.

Lemma spells_lower (pat w : string) :
  lowercase_word pat -> (spells pat w <-> lower w = pat).
Proof.
  revert w; induction pat as [|p pat IH]; intros [|c w]; simpl;
    try (intros; split; [tauto | discriminate]); [tauto|].
  intros [Hp Hpat]. rewrite (IH w Hpat). split.
  - intros [[->| ->] <-]; f_equal; now apply lower_upper_ascii.
  - intros [= Hc Hw]. split; [now apply lower_ascii_inv | assumption].
Qed.

Lemma prefix_lower_inv (pat s : string) :
  String.prefix pat (lower s) = true ->
  exists w suf, s = w +:+ suf /\ lower w = pat.
Proof.
  revert s; induction pat as [|p pat IH]; intros s H.
  - exists EmptyString, s. split; reflexivity.
  - destruct s as [|c s]; simpl in H; [discriminate|].
    destruct (Ascii.ascii_dec p (lower_ascii c)) as [->|]; [|discriminate].
    destruct (IH s H) as (w & suf & -> & <-).
    exists (String c w), suf. split; reflexivity.
Qed.

Lemma contains_lower_inv (pat s : string) :
  contains pat (lower s) = true ->
  exists pre w suf, s = pre +:+ w +:+ suf /\ lower w = pat.
Proof.
  induction s as [|c s IH]; simpl; intros H; apply orb_true_iff in H.
  - destruct H as [H|H]; [|discriminate].
    destruct (prefix_lower_inv pat EmptyString H) as (w & suf & E & L).
    exists EmptyString, w, suf. split; assumption.
  - destruct H as [H|H].
    + destruct (prefix_lower_inv pat (String c s) H) as (w & suf & E & L).
      exists EmptyString, w, suf. split; assumption.
    + destruct (IH H) as (pre & w & suf & -> & L).
      exists (String c pre), w, suf. split; [reflexivity | assumption].
Qed.

(** The test of the boot branch is exactly: the source contains [boot] in
    some letter case. *)
Lemma is_boot_notification_iff (source : string) :
  is_boot_notification source = true <-> contains_any_case "boot" source.
Proof.
  assert (Hword : lowercase_word "boot")
    by (simpl; unfold lowercase_letter; simpl; repeat split; lia).
  unfold is_boot_notification, contains_any_case. split.
  - intros H. apply andb_true_iff in H as [_ H].
    destruct (contains_lower_inv _ _ H) as (pre & w & suf & E & L).
    exists pre, w, suf. split; [assumption | now apply spells_lower].
  - intros (pre & w & suf & -> & Hw).
    apply (spells_lower _ _ Hword) in Hw.
    apply andb_true_iff. split.
    + destruct w; [discriminate|]. now destruct pre.
    + rewrite !lower_app, Hw. apply contains_app.
Qed.

(** ** Boot notifications *)

Section Ingestion.
Variable rt : Runtime.
Variable env : Env.

(** C1 (as amended).  A submission whose source contains [boot] in any
    letter case is answered [BOOT_ACK] with status 200 before the
    required-field check, whatever the fields [v], [c] and [k] hold; no
    reading is inserted and no [device_status] row is created or changed:
    the store is handed back as it was. *)
Theorem boot_notification_acknowledged (db : Store) (params : Params) :
  contains_any_case "boot" (get_default params "s" "") ->
  receive_meter_data rt env db params = ((BOOT_ACK, 200), db).
Proof.
  intros H. apply is_boot_notification_iff in H.
  unfold receive_meter_data. now rewrite H.
Qed.

(** ** Required fields *)

Lemma truthy_false_iff (x : option string) :
  truthy x = false <-> absent_or_empty x.
Proof.
  unfold absent_or_empty. destruct x as [[|c s]|]; simpl; split;
    try tauto; try discriminate; intros [H|H]; discriminate.
Qed.

(** C5 (as amended).  A submission that is not a boot notification and
    lacks one or more of [v], [c], [k] (absent or empty) is rejected with
    status 400, the store untouched, and the reason names every missing
    field: [v (voltage)], [c (current)], [k (kWh)]. *)
Theorem missing_fields_all_named (db : Store) (params : Params) :
  ~ contains_any_case "boot" (get_default params "s" "") ->
  absent_or_empty (get params "v") \/ absent_or_empty (get params "c")
    \/ absent_or_empty (get params "k") ->
  exists reason,
    receive_meter_data rt env db params = ((Error reason, 400), db) /\
    (absent_or_empty (get params "v") -> contains "v (voltage)" reason = true) /\
    (absent_or_empty (get params "c") -> contains "c (current)" reason = true) /\
    (absent_or_empty (get params "k") -> contains "k (kWh)" reason = true).
Proof.
  intros Hboot Hmiss.
  rewrite <- is_boot_notification_iff in Hboot.
  apply not_true_is_false in Hboot.
  pose proof (truthy_false_iff (get params "v")) as Hv.
  pose proof (truthy_false_iff (get params "c")) as Hc.
  pose proof (truthy_false_iff (get params "k")) as Hk.
  unfold receive_meter_data, missing_fields. rewrite Hboot.
  destruct (truthy (get params "v")), (truthy (get params "c")),
    (truthy (get params "k")); simpl;
    try (exfalso; destruct Hmiss as [A|[A|A]];
         [apply Hv in A | apply Hc in A | apply Hk in A]; discriminate);
    eexists; (split; [reflexivity|]);
    (split; [|split]); intros A;
    first [ vm_compute; reflexivity
          | apply Hv in A; discriminate
          | apply Hc in A; discriminate
          | apply Hk in A; discriminate ].
Qed.
End Ingestion.

(** ** Range checks *)

Lemma float_lt_false (x : pyfloat) (n : Z) :
  x <> NaN -> float_lt x n = false <-> at_least n x.
Proof.
  destruct x as [q| | |]; simpl; intros Hx; try tauto.
  - rewrite negb_false_iff. apply Qle_bool_iff.
  - split; [discriminate | tauto].
Qed.

Lemma float_gt_false (x : pyfloat) (n : Z) :
  x <> NaN -> float_gt x n = false <-> at_most n x.
Proof.
  destruct x as [q| | |]; simpl; intros Hx; try tauto.
  - rewrite negb_false_iff. apply Qle_bool_iff.
  - split; [discriminate | tauto].
Qed.

Lemma between_false (x : pyfloat) (lo hi : Z) :
  x <> NaN -> float_lt x lo || float_gt x hi = false <-> in_range lo hi x.
Proof.
  intros Hx. unfold in_range.
  rewrite orb_false_iff, float_lt_false, float_gt_false by assumption.
  reflexivity.
Qed.

(** On every float that is a number or an infinity, each range test
    passes exactly on the inclusive range the code's comment gives. *)
Lemma range_checks_exact (x : pyfloat) :
  x <> NaN ->
  (voltage_out_of_range x = false <-> in_range 0 500 x) /\
  (current_out_of_range x = false <-> in_range 0 1000 x) /\
  (power_factor_out_of_range x = false <-> in_range 0 1 x) /\
  (frequency_out_of_range x = false <-> in_range 45 65 x) /\
  (load_negative x = false <-> at_least 0 x) /\
  (kwh_negative x = false <-> at_least 0 x).
Proof.
  intros Hx. refine (conj _ (conj _ (conj _ (conj _ (conj _ _)))));
    first [ apply (between_false x _ _ Hx) | apply (float_lt_false x _ Hx) ].
Qed.

(** The boundary cases of the voltage range. *)
Example voltage_boundaries :
  voltage_out_of_range (Finite 0) = false /\
  voltage_out_of_range (Finite 500) = false /\
  voltage_out_of_range (Finite (-0.01)) = true /\
  voltage_out_of_range (Finite 500.01) = true.
Proof. repeat split. Qed.

(** ** The validation block, field by field *)

Lemma first_some_Some {A B} (g : A -> option B) (l : list A) (b : B) :
  first_some g l = Some b <->
  exists pre a post,
    l = (pre ++ a :: post)%list /\ (forall x, x ∈ pre -> g x = None) /\
    g a = Some b.
Proof.
  induction l as [|a l IH]; simpl.
  - split; [discriminate|]. intros (pre & x & post & E & _).
    now destruct pre.
  - destruct (g a) as [b'|] eqn:Ga.
    + split.
      * intros [= ->]. exists [], a, l. repeat split; [|assumption].
        intros x Hx. inversion Hx.
      * intros ([|p pre] & x & post & E & Hpre & Hx); simpl in E;
          injection E as -> ->.
        -- congruence.
        -- rewrite Hpre in Ga by left. discriminate.
    + rewrite IH. split.
      * intros (pre & x & post & -> & Hpre & Hx).
        exists (a :: pre), x, post. repeat split; [|assumption].
        intros y Hy. apply elem_of_cons in Hy as [->|Hy]; auto.
      * intros ([|p pre] & x & post & E & Hpre & Hx); simpl in E;
          injection E as -> ->.
        -- congruence.
        -- exists pre, x, post. repeat split; [|assumption].
           intros y Hy. apply Hpre. now right.
Qed.

Lemma first_some_None {A B} (g : A -> option B) (l : list A) :
  first_some g l = None <-> forall a, a ∈ l -> g a = None.
Proof.
  induction l as [|a l IH]; simpl.
  - split; [|reflexivity]. intros _ x Hx. inversion Hx.
  - destruct (g a) eqn:Ga.
    + split; [discriminate|]. intros H. rewrite H in Ga by left. discriminate.
    + rewrite IH. split.
      * intros H x Hx. apply elem_of_cons in Hx as [->|Hx]; auto.
      * intros H x Hx. apply H. now right.
Qed.

Section Validation.
Variable rt : Runtime.
Variable env : Env.

(** One parse-and-check step of [validate]. *)
Lemma float_step {A} (bad : pyfloat -> bool) (msg : pyfloat -> string)
    (text : option string) (k : option pyfloat -> result A) :
  match float_error rt bad msg text with
  | Some e =>
    (x ← float_or_none rt text; check x bad msg;; k x) = Raise e
  | None =>
    exists x, (x ← float_or_none rt text; check x bad msg;; k x) = k x
  end.
Proof.
  unfold float_error, float_or_none.
  destruct text as [s|]; [|now exists None].
  destruct (truthy (Some s)); [|now exists None].
  destruct (py_float rt s) as [x|e]; simpl; [|reflexivity].
  destruct (bad x); simpl; [reflexivity | now exists (Some x)].
Qed.

(** Consume the next parse-and-check step of the goal. *)
Local Ltac step bad msg text :=
  let H := fresh in
  generalize (fun A => @float_step A bad msg text);
  destruct (float_error rt bad msg text) as [?e|]; intros H;
  [ apply H
  | let x := fresh "x" in
    let Hx := fresh in
    edestruct H as [x Hx]; rewrite Hx; clear H Hx ].

(** The validator raises exactly the error of the first failing field. *)
Lemma validate_first_error (params : Params) :
  match first_error rt params with
  | Some e =>
    validate rt (get params "v") (get params "c") (get params "pf")
      (get params "l") (get params "k") (get params "f")
      (get_default params "r" "0") = Raise e
  | None =>
    exists v,
      validate rt (get params "v") (get params "c") (get params "pf")
        (get params "l") (get params "k") (get params "f")
        (get_default params "r" "0") = Return v
  end.
Proof.
  unfold first_error, check_order, validate. simpl first_some.
  unfold field_error, field_text.
  step voltage_out_of_range (voltage_msg rt) (get params "v").
  step current_out_of_range (current_msg rt) (get params "c").
  step power_factor_out_of_range (power_factor_msg rt) (get params "pf").
  step load_negative (load_msg rt) (get params "l").
  step kwh_negative (kwh_msg rt) (get params "k").
  step frequency_out_of_range (frequency_msg rt) (get params "f").
  unfold int_error, truthy.
  destruct (get_default params "r" "0") as [|c r]; simpl.
  - eexists; reflexivity.
  - destruct (py_int rt (String c r)); simpl; [eexists|]; reflexivity.
Qed.

Lemma some_field_error (params : Params) :
  (exists f, is_Some (field_error rt f (field_text params f))) <->
  is_Some (first_error rt params).
Proof.
  unfold first_error. split.
  - intros [f Hf].
    destruct (first_some _ check_order) eqn:E; [eauto|].
    rewrite first_some_None in E.
    rewrite E in Hf; [now destruct Hf|].
    unfold check_order. destruct f; set_solver.
  - intros [e He]. apply first_some_Some in He as (_ & f & _ & _ & _ & Hf).
    exists f. eauto.
Qed.

(** A submission the validator rejects is answered with status 400 and
    the store is handed back unchanged. *)
Lemma rejected_submission_leaves_store (db : Store) (params : Params) :
  fails_validation rt params ->
  exists reason,
    receive_meter_data rt env db params = ((Error reason, 400), db).
Proof.
  intros [Hboot Hbad].
  rewrite <- is_boot_notification_iff in Hboot.
  apply not_true_is_false in Hboot.
  unfold receive_meter_data. rewrite Hboot.
  destruct (missing_fields _ _ _) eqn:Hmiss; [|eauto].
  destruct Hbad as [Hreq|Hnum].
  - exfalso. rewrite <- !truthy_false_iff in Hreq. unfold missing_fields in Hmiss.
    destruct Hreq as [H|[H|H]]; rewrite H in Hmiss;
      repeat destruct (truthy _); discriminate.
  - apply some_field_error in Hnum as [e He].
    pose proof (validate_first_error params) as V. rewrite He in V.
    rewrite V. eauto.
Qed.

(** Conversely, status 400 is only ever the answer to a submission that
    fails validation, and then too the store is unchanged. *)
Lemma status_400_is_validation_failure (db : Store) (params : Params)
    (reason : string) (db' : Store) :
  receive_meter_data rt env db params = ((Error reason, 400), db') ->
  fails_validation rt params /\ db' = db.
Proof.
  unfold receive_meter_data, fails_validation.
  rewrite <- is_boot_notification_iff.
  destruct (is_boot_notification _); [discriminate|].
  destruct (missing_fields _ _ _) eqn:Hmiss.
  - pose proof (validate_first_error params) as V.
    destruct (first_error rt params) as [e|] eqn:He.
    + rewrite V. intros [= <- <-]. split; [|reflexivity].
      split; [discriminate|]. right. apply some_field_error. rewrite He. eauto.
    + destruct V as [v ->].
      destruct (insert_reading _ _ _ _ _ _ _ _ _ _ _) as [[id|e] db''];
        discriminate.
  - intros [= <- <-]. split; [|reflexivity].
    split; [discriminate|]. left. rewrite <- !truthy_false_iff.
    unfold missing_fields in Hmiss.
    destruct (truthy (get params "v")); [|tauto].
    destruct (truthy (get params "c")); [|tauto].
    destruct (truthy (get params "k")); [discriminate | tauto].
Qed.

(** The code's test of a field rejects every number outside the field's
    range. *)
Lemma out_of_range_has_error (f : field) (text : string) :
  text <> "" -> unparseable rt f text \/ out_of_range rt f text ->
  is_Some (field_error rt f (Some text)).
Proof.
  intros Htext H.
  assert (Htruthy : truthy (Some text) = true) by now destruct text.
  assert (Hfloat : forall bad msg range,
            (forall x, x <> NaN -> bad x = false <-> range x) ->
            (exists e, py_float rt text = Raise e) \/
            (exists x, py_float rt text = Return x /\ x <> NaN /\ ~ range x) ->
            is_Some (float_error rt bad msg (Some text))).
  { intros bad msg range Hexact [[e He]|(x & Hx & Hnan & Hout)];
      unfold float_error; rewrite Htruthy.
    - rewrite He. eauto.
    - rewrite Hx. destruct (bad x) eqn:Hbad; [eauto|].
      exfalso. apply Hout. now apply Hexact. }
  destruct f; cbn [field_error];
    try (eapply Hfloat;
         [intros x Hx; apply (range_checks_exact x Hx)
         |destruct H as [H|[_ H]]; [left; exact H | right; exact H]]).
  destruct H as [[e He]|[Hf _]]; [|congruence].
  unfold int_error. rewrite Htruthy, He. eauto.
Qed.

Lemma invalid_submission_fails_validation (params : Params) :
  invalid_submission rt params -> fails_validation rt params.
Proof.
  intros [Hboot [Hreq|(f & text & Hf & Htext & H)]];
    (split; [assumption|]); [now left|].
  right. exists f. rewrite Hf. now apply out_of_range_has_error.
Qed.

(** C7 (as amended).  A submission that is no boot notification and in
    which a required field is missing or empty, or a numeric field is
    given with a text that does not parse, or with a number (an infinity
    included, NaN not) outside its range, is answered with the validation
    failure, status 400, and the store is handed back unchanged: no
    reading row is inserted, no [device_status] row created or changed. *)
Theorem invalid_submission_rejected (db : Store) (params : Params) :
  invalid_submission rt params ->
  exists reason,
    receive_meter_data rt env db params = ((Error reason, 400), db).
Proof.
  intros H. apply rejected_submission_leaves_store.
  now apply invalid_submission_fails_validation.
Qed.

End Validation.

(** ** Queries *)

Global Instance newer_first_total : Total newer_first.
Proof. intros r1 r2. unfold newer_first. destruct (total String.le
  (meter_readings.received_at r1) (meter_readings.received_at r2)); auto. Qed.

Global Instance newer_first_trans : Transitive newer_first.
Proof. intros r1 r2 r3 H12 H23. unfold newer_first in *. now transitivity
  (meter_readings.received_at r2). Qed.

Global Instance older_first_total : Total older_first.
Proof. intros r1 r2. unfold older_first. apply (total String.le). Qed.

Global Instance older_first_trans : Transitive older_first.
Proof. intros r1 r2 r3 H12 H23. unfold older_first in *. now transitivity
  (meter_readings.received_at r2). Qed.

Lemma StronglySorted_take {A} (R : relation A) (n : nat) (l : list A) :
  StronglySorted R l -> StronglySorted R (take n l).
Proof.
  intros H. revert n. induction H as [|a l Hl IH Ha]; intros [|n]; simpl;
    try constructor; auto.
  now apply Forall_take.
Qed.

Lemma sql_limit_sorted {A} (R : relation A) (limit : Z) (l : list A) :
  StronglySorted R l -> StronglySorted R (sql_limit limit l).
Proof.
  unfold sql_limit. destruct (limit <? 0); [auto|]. apply StronglySorted_take.
Qed.

Lemma sql_limit_length {A} (limit : Z) (l : list A) :
  0 <= limit -> Z.of_nat (length (sql_limit limit l)) <= limit.
Proof.
  intros H. unfold sql_limit.
  destruct (Z.ltb_spec limit 0) as [?|_]; [lia|].
  rewrite length_take. lia.
Qed.

Lemma sql_limit_sublist {A} (limit : Z) (l : list A) :
  sql_limit limit l `sublist_of` l.
Proof.
  unfold sql_limit. destruct (limit <? 0); [reflexivity | apply sublist_take].
Qed.

(** ** What [get_readings] selects *)

Lemma source_clause_true (source : option string) (r : meter_readings.row) :
  source_clause source r = true <-> source_matches source r.
Proof.
  unfold source_clause, source_matches.
  destruct source as [s|]; [|tauto].
  destruct s as [|c s]; [simpl; tauto|].
  destruct (String.eqb_spec (String c s) "All") as [->|Hne].
  - simpl; tauto.
  - replace (truthy (Some (String c s)) && negb false) with true by reflexivity.
    rewrite bool_decide_eq_true. split; [tauto|].
    intros [?|[?|?]]; [discriminate | contradiction | assumption].
Qed.

Lemma start_clause_true (rt : Runtime) (start_date : option string)
    (r : meter_readings.row) :
  start_clause rt start_date r = true <-> since rt start_date r.
Proof.
  unfold start_clause, since, from_date, String.le.
  destruct start_date as [[|c d]|]; simpl; [tauto| |tauto].
  destruct (sql_date rt _) as [x|].
  - rewrite <- Is_true_true. split.
    + intros H. right. eauto.
    + intros [?|(y & [= <-] & H)]; [discriminate | exact H].
  - split; [discriminate|]. intros [?|(y & [=] & _)]. discriminate.
Qed.

Lemma end_clause_true (rt : Runtime) (end_date : option string)
    (r : meter_readings.row) :
  end_clause rt end_date r = true <-> up_to rt end_date r.
Proof.
  unfold end_clause, up_to, until_date, String.le.
  destruct end_date as [[|c d]|]; simpl; [tauto| |tauto].
  destruct (sql_date rt _) as [x|].
  - rewrite <- Is_true_true. split.
    + intros H. right. eauto.
    + intros [?|(y & [= <-] & H)]; [discriminate | exact H].
  - split; [discriminate|]. intros [?|(y & [=] & _)]. discriminate.
Qed.

(** The rows [get_readings] sorts: those the request asks for. *)
Lemma selected_requested (rt : Runtime) (db : Store)
    (source start_date end_date : option string) (r : meter_readings.row) :
  r ∈ List.filter
        (fun r => source_clause source r && start_clause rt start_date r
                  && end_clause rt end_date r) (readings db) <->
  requested rt db source start_date end_date r.
Proof.
  unfold requested.
  rewrite list_elem_of_In, filter_In, <- list_elem_of_In, !andb_true_iff,
    source_clause_true, start_clause_true, end_clause_true.
  tauto.
Qed.

Lemma get_readings_value (rt : Runtime) (env : Env) (db : Store)
    (source : option string) (limit : Z) (start_date end_date : option string)
    (rows : list meter_readings.row) :
  get_readings rt env db source limit start_date end_date = Return rows ->
  rows = sql_limit limit
           (merge_sort newer_first
              (List.filter
                 (fun r => source_clause source r
                           && start_clause rt start_date r
                           && end_clause rt end_date r) (readings db))).
Proof.
  unfold get_readings. destruct (fault env); [discriminate|].
  destruct (fits_int64 limit); simpl; [|discriminate]. now intros [= <-].
Qed.

Lemma get_readings_sound (rt : Runtime) (env : Env) (db : Store)
    (source : option string) (limit : Z) (start_date end_date : option string)
    (rows : list meter_readings.row) (r : meter_readings.row) :
  get_readings rt env db source limit start_date end_date = Return rows ->
  r ∈ rows -> requested rt db source start_date end_date r.
Proof.
  intros H Hr. apply get_readings_value in H as ->.
  apply (fun H => elem_of_sublist _ _ _ H (sql_limit_sublist _ _)) in Hr.
  rewrite merge_sort_Permutation in Hr. now apply selected_requested.
Qed.

Lemma get_readings_complete (rt : Runtime) (env : Env) (db : Store)
    (source : option string) (limit : Z) (start_date end_date : option string)
    (rows : list meter_readings.row) (r : meter_readings.row) :
  get_readings rt env db source limit start_date end_date = Return rows ->
  limit < 0 \/ Z.of_nat (length (readings db)) <= limit ->
  requested rt db source start_date end_date r -> r ∈ rows.
Proof.
  intros H Hlimit Hr. apply get_readings_value in H as ->.
  apply selected_requested in Hr.
  rewrite <- (merge_sort_Permutation newer_first) in Hr.
  unfold sql_limit. destruct (Z.ltb_spec limit 0) as [?|Hpos]; [exact Hr|].
  rewrite take_ge; [exact Hr|].
  rewrite (Permutation_length (merge_sort_Permutation _ _)).
  pose proof (List.filter_length_le
                (fun r => source_clause source r
                          && start_clause rt start_date r
                          && end_clause rt end_date r) (readings db)).
  lia.
Qed.

Section Queries.
Variable rt : Runtime.
Variable env : Env.

(** [get_readings] returns whenever sqlite3 does not fail and the limit
    fits 64 bits. *)
Lemma get_readings_returns (db : Store) (source : option string) (limit : Z)
    (start_date end_date : option string) :
  fault env = None -> fits_int64 limit = true ->
  exists rows,
    get_readings rt env db source limit start_date end_date = Return rows.
Proof. unfold get_readings. intros -> ->. eauto. Qed.

(** What [get_readings] returns is stored, newest first, and within a
    non-negative limit. *)
Lemma get_readings_rows (db : Store) (source : option string) (limit : Z)
    (start_date end_date : option string) (rows : list meter_readings.row) :
  get_readings rt env db source limit start_date end_date = Return rows ->
  (forall r, r ∈ rows -> r ∈ readings db) /\
  StronglySorted newer_first rows /\
  (0 <= limit -> Z.of_nat (length rows) <= limit).
Proof.
  unfold get_readings. destruct (fault env); [discriminate|].
  destruct (fits_int64 limit); [|discriminate]. simpl. intros [= <-].
  split; [|split].
  - intros r Hr.
    apply (fun H => elem_of_sublist _ _ _ H (sql_limit_sublist _ _)) in Hr.
    rewrite merge_sort_Permutation, list_elem_of_In in Hr.
    apply filter_In in Hr as [Hr _]. now apply list_elem_of_In.
  - apply sql_limit_sorted, StronglySorted_merge_sort; apply _.
  - apply sql_limit_length.
Qed.

(** C8 (as amended).  [get_readings] with a limit [N >= 0] never returns
    more than [N] rows, whatever the source and date filters, and the rows
    come newest first (descending [received_at]); it does return when
    sqlite3 does not fail and [N] fits 64 bits.  A negative [N] is no cap:
    the rows returned are then all the stored readings the filters ask
    for, still in descending order. *)
Theorem get_readings_capped_and_descending (db : Store)
    (source : option string) (limit : Z) (start_date end_date : option string) :
  (fault env = None -> fits_int64 limit = true ->
   exists rows,
     get_readings rt env db source limit start_date end_date = Return rows) /\
  (forall rows,
     get_readings rt env db source limit start_date end_date = Return rows ->
     StronglySorted newer_first rows /\
     (0 <= limit -> Z.of_nat (length rows) <= limit) /\
     (limit < 0 ->
      forall r, r ∈ rows <-> requested rt db source start_date end_date r)).
Proof.
  split.
  - apply get_readings_returns.
  - intros rows H.
    pose proof (get_readings_rows _ _ _ _ _ _ H) as (_ & Hs & Hl).
    split; [exact Hs|]. split; [exact Hl|].
    intros Hneg r. split.
    + exact (get_readings_sound _ _ _ _ _ _ _ _ r H).
    + exact (get_readings_complete _ _ _ _ _ _ _ _ r H (or_introl Hneg)).
Qed.

(** C9.  [get_readings] with [source="All"] gives the same outcome, the
    same rows in the same order, as with no source at all, for every
    limit and every pair of date filters. *)
Theorem source_All_is_no_source_filter (db : Store) (limit : Z)
    (start_date end_date : option string) :
  get_readings rt env db (Some "All") limit start_date end_date =
  get_readings rt env db None limit start_date end_date.
Proof.
  unfold get_readings.
  destruct (fault env) as [e|]; [reflexivity|].
  destruct (fits_int64 limit); simpl; [|reflexivity].
  f_equal.
Qed.

Lemma between_dates_true (start_date end_date : string)
    (r : meter_readings.row) :
  between_dates rt start_date end_date r = true <->
  date_within rt start_date end_date r.
Proof.
  unfold between_dates, from_date, until_date, date_within, String.le.
  destruct (sql_date rt _) as [d|].
  - rewrite andb_true_iff, <- !Is_true_true. split; [eauto|].
    intros (d' & [= <-] & H); exact H.
  - split; [discriminate|]. intros (d & [=] & _).
Qed.

Lemma selected_by_range (start_date end_date : string)
    (source : option string) (r : meter_readings.row) :
  between_dates rt start_date end_date r && source_clause source r = true <->
  date_within rt start_date end_date r /\ source_matches source r.
Proof.
  now rewrite andb_true_iff, between_dates_true, source_clause_true.
Qed.

(** [get_readings_by_date_range] returns, oldest first and without any cap,
    exactly the stored readings of the range (and source). *)
Lemma get_readings_by_date_range_complete (db : Store)
    (start_date end_date : string) (source : option string) :
  fault env = None ->
  exists rows,
    get_readings_by_date_range rt env db start_date end_date source
      = Return rows /\
    rows ≡ₚ List.filter
              (fun r => between_dates rt start_date end_date r
                        && source_clause source r) (readings db) /\
    (forall r, r ∈ rows <->
       r ∈ readings db /\ date_within rt start_date end_date r
       /\ source_matches source r) /\
    StronglySorted older_first rows.
Proof.
  intros Hok. unfold get_readings_by_date_range. rewrite Hok.
  eexists. split; [reflexivity|]. split; [apply merge_sort_Permutation|].
  split; [|apply StronglySorted_merge_sort; apply _].
  intros r. rewrite merge_sort_Permutation, <- selected_by_range.
  rewrite !list_elem_of_In. apply filter_In.
Qed.

(** Writing any reading fails: its dict has the key [created_at], which
    is no field name. *)
Lemma write_rows_fails (reading : meter_readings.row)
    (rest : list meter_readings.row) :
  write_rows (reading :: rest)
    = Raise "dict contains fields not in fieldnames: 'created_at'".
Proof. reflexivity. Qed.

(** What [export_data] answers when sqlite3 does not fail: an empty CSV
    with status 200 if no reading passes the filters, and status 500 with
    the [DictWriter]'s error as soon as one does. *)
Lemma export_data_answers (db : Store) (args : Params) :
  fault env = None ->
  exists rows,
    get_readings rt env db (get args "source") 1000
      (get args "start_date") (get args "end_date") = Return rows /\
    export_data rt env db args =
      match rows with
      | [] => (Csv [], 200)
      | _ :: _ =>
        (Error "dict contains fields not in fieldnames: 'created_at'", 500)
      end.
Proof.
  intros Hok.
  destruct (get_readings_returns db (get args "source") 1000
              (get args "start_date") (get args "end_date") Hok eq_refl)
    as [rows Hrows].
  exists rows. split; [exact Hrows|].
  unfold export_data. rewrite Hrows.
  destruct rows as [|reading rest]; [reflexivity|].
  now rewrite write_rows_fails.
Qed.
End Queries.

(** ** Failures of the storage layer *)

Section Failures.
Variable rt : Runtime.
Variable env : Env.

(** C3 (as amended).  When the sqlite3 layer raises [e] during a call,
    [init_database], [insert_reading], [get_readings],
    [get_readings_by_date_range], [cleanup_old_data] and [backup_database]
    raise [e] to the caller and leave the store as it was; the other
    operations absorb it: [get_statistics] returns the empty dict,
    [get_latest_reading] returns [None], [health_check] returns [False],
    and [update_device_status] and [log_system_event] return normally
    without having written.  Constraint violations follow the same split:
    [insert_reading] raises on a NULL source and on a retry count outside
    64 bits, [get_readings] raises on such a limit, and
    [update_device_status] silently drops an update whose counter would
    leave 64 bits. *)
Theorem failures_raised_or_absorbed (db : Store) :
  (forall e, fault env = Some e ->
     init_database env db = (Raise e, db) /\
     (forall v c pf l k f d r s,
        insert_reading env db v c pf l k f d r s = (Raise e, db)) /\
     (forall source limit start_date end_date,
        get_readings rt env db source limit start_date end_date = Raise e) /\
     (forall start_date end_date source,
        get_readings_by_date_range rt env db start_date end_date source
          = Raise e) /\
     (forall days, cleanup_old_data env db days = (Raise e, db)) /\
     (forall path, backup_database env db path = Raise e) /\
     get_statistics rt env db = Return [] /\
     (forall source, get_latest_reading rt env db source = Return None) /\
     health_check env db = Return false /\
     (forall source status ib ie,
        update_device_status env db source status ib ie = (Return tt, db)) /\
     (forall level message module,
        log_system_event env db level message module = (Return tt, db))) /\
  (fault env = None ->
     (forall v c pf l k f d r,
        fits_int64 r = true ->
        insert_reading env db v c pf l k f d r None =
          (Raise "NOT NULL constraint failed: device_status.source", db)) /\
     (forall v c pf l k f d r s,
        fits_int64 r = false ->
        insert_reading env db v c pf l k f d r s = (Raise overflow, db)) /\
     (forall source limit start_date end_date,
        fits_int64 limit = false ->
        get_readings rt env db source limit start_date end_date
          = Raise overflow) /\
     (forall source status ie d,
        devices db !! source = Some d ->
        device_status.boot_count d = 2 ^ 63 - 1 ->
        update_device_status env db source status true ie = (Return tt, db))).
Proof.
  split.
  - intros e He.
    unfold init_database, insert_reading, get_latest_reading, get_readings,
      get_readings_by_date_range, cleanup_old_data, backup_database,
      get_statistics, health_check, update_device_status, log_system_event.
    rewrite He. repeat split.
  - intros Hok. unfold insert_reading, get_readings, update_device_status.
    rewrite Hok. repeat split.
    + intros v c pf l k f d r ->. reflexivity.
    + intros v c pf l k f d r s ->. reflexivity.
    + intros source limit start_date end_date ->. reflexivity.
    + intros source status ie d -> ->. reflexivity.
Qed.
End Failures.

(** ** Device counters *)

(** A successful [insert_reading] writes the device row of its source
    with the error count it found and with [boot_count] at the column
    default 0, whatever it was. *)
Lemma insert_reading_device_row (env : Env) (db db' : Store)
    (v c pf l k f : option pyfloat) (d : option string) (r : Z)
    (s : string) (reading_id : Z) :
  insert_reading env db v c pf l k f d r (Some s) = (Return reading_id, db') ->
  exists row,
    devices db' !! s = Some row /\
    device_status.boot_count row = 0 /\
    device_status.error_count row =
      match devices db !! s with
      | Some old => device_status.error_count old
      | None => 0
      end /\
    forall s', s' <> s -> devices db' !! s' = devices db !! s'.
Proof.
  unfold insert_reading. destruct (fault env); [discriminate|].
  destruct (fits_int64 r); [|discriminate]. simpl. intros [= _ <-]. simpl.
  eexists. rewrite lookup_insert_eq. repeat split.
  intros s' Hs'. now rewrite lookup_insert_ne.
Qed.

Lemma insert_reading_raise (env : Env) (db db' : Store)
    (v c pf l k f : option pyfloat) (d : option string) (r : Z)
    (s : option string) (e : string) :
  insert_reading env db v c pf l k f d r s = (Raise e, db') -> db' = db.
Proof.
  unfold insert_reading. destruct (fault env); [now intros [= _ <-]|].
  destruct (fits_int64 r); simpl; [|now intros [= _ <-]].
  destruct s; [discriminate | now intros [= _ <-]].
Qed.

(** No operation lowers the error count of a device. *)
Lemma apply_error_count (rt : Runtime) (db : Store) (step : Env * operation)
    (s : string) (row : device_status.row) :
  devices db !! s = Some row ->
  exists row',
    devices (apply rt db step) !! s = Some row' /\
    device_status.error_count row <= device_status.error_count row'.
Proof.
  intros Hrow. destruct step as [env [params|source status ib ie]]; simpl.
  - unfold receive_meter_data.
    destruct (is_boot_notification _); [exists row; split; [auto|lia]|].
    destruct (missing_fields _ _ _); [|exists row; split; [auto|lia]].
    destruct (validate _ _ _ _ _ _ _ _) as [val|e];
      [|exists row; split; [auto|lia]].
    destruct (insert_reading _ _ _ _ _ _ _ _ _ _ _) as [[id|e] db'] eqn:Hins;
      simpl.
    + apply insert_reading_device_row in Hins
        as (new & Hnew & _ & Herr & Hother).
      destruct (decide (s = get_default params "s" "")) as [->|Hne].
      * exists new. rewrite Hrow in Herr. split; [auto|lia].
      * exists row. rewrite Hother by auto. split; [auto|lia].
    + apply insert_reading_raise in Hins as ->.
      exists row; split; [auto|lia].
  - unfold update_device_status.
    destruct (fault env); [exists row; split; [auto|lia]|].
    destruct (negb _); [exists row; split; [auto|lia]|]. simpl.
    destruct (decide (s = source)) as [->|Hne].
    + rewrite lookup_insert_eq, Hrow. eexists. split; [reflexivity|].
      simpl. destruct ie; lia.
    + rewrite lookup_insert_ne by auto. exists row; split; [auto|lia].
Qed.

(** Along any sequence of operations a device row stays in the table and
    its error count never decreases. *)
Lemma error_count_never_decreases (rt : Runtime)
    (steps : list (Env * operation)) (db : Store) (s : string)
    (row : device_status.row) :
  devices db !! s = Some row ->
  exists row',
    devices (run rt steps db) !! s = Some row' /\
    device_status.error_count row <= device_status.error_count row'.
Proof.
  unfold run. revert db row.
  induction steps as [|step steps IH]; intros db row Hrow; simpl.
  - exists row. split; [auto|lia].
  - destruct (apply_error_count rt db step s row Hrow) as (mid & Hmid & Hle).
    destruct (IH _ _ Hmid) as (row' & Hrow' & Hle').
    exists row'. split; [auto|lia].
Qed.

(** ** The theorems at work on the samples *)

Section Samples.
Import Reference Sample.

Lemma atmega328pb_is_no_boot_source :
  ~ contains_any_case "boot" (get_default reading_request "s" "").
Proof.
  intros H. apply is_boot_notification_iff in H. vm_compute in H.
  discriminate.
Defined.

Lemma boot_notification_acknowledged_witness :
  contains_any_case "boot" (get_default boot_request "s" "") /\
  receive_meter_data runtime on_the_27th one_reading boot_request
    = ((BOOT_ACK, 200), one_reading).
Proof.
  assert (H : contains_any_case "boot" (get_default boot_request "s" "")).
  { exists "", "BOOT", "-atmega328pb". split; [reflexivity|].
    simpl. repeat split; auto. }
  split; [exact H|].
  exact (boot_notification_acknowledged runtime on_the_27th one_reading
           boot_request H).
Defined.

(** C1, as stated, fails: after a boot notification from a device not yet
    known there is no [device_status] row for it, let alone one with
    [boot_count] 1; the store is still empty. *)
Lemma boot_notification_writes_no_device_row :
  fst (receive_meter_data runtime on_the_26th empty_store boot_request)
    = (BOOT_ACK, 200) /\
  snd (receive_meter_data runtime on_the_26th empty_store boot_request)
    = empty_store /\
  ~ exists row,
      devices (snd (receive_meter_data runtime on_the_26th empty_store
                      boot_request)) !! "BOOT-atmega328pb" = Some row /\
      device_status.boot_count row = 1.
Proof.
  split; [reflexivity|]. split; [reflexivity|].
  intros (row & H & _). vm_compute in H. discriminate.
Qed.

Lemma missing_fields_all_named_witness :
  exists reason,
    receive_meter_data runtime on_the_26th one_reading
      [("v", "230.5"); ("c", ""); ("s", "atmega328pb")]
      = ((Error reason, 400), one_reading) /\
    contains "c (current)" reason = true /\
    contains "k (kWh)" reason = true.
Proof.
  destruct (missing_fields_all_named runtime on_the_26th one_reading
              [("v", "230.5"); ("c", ""); ("s", "atmega328pb")])
    as (reason & Hr & _ & Hc & Hk).
  - exact atmega328pb_is_no_boot_source.
  - right. left. right. reflexivity.
  - exists reason. split; [exact Hr|]. split.
    + apply Hc. right. reflexivity.
    + apply Hk. left. reflexivity.
Defined.

(** C5, as stated, fails: a boot notification lacks [v], [c] and [k] and
    is acknowledged, not rejected. *)
Lemma boot_request_without_fields_not_rejected :
  absent_or_empty (get boot_request "v") /\
  absent_or_empty (get boot_request "c") /\
  absent_or_empty (get boot_request "k") /\
  ~ exists reason,
      fst (receive_meter_data runtime on_the_26th empty_store boot_request)
        = (Error reason, 400).
Proof.
  repeat split; try (left; reflexivity).
  intros (reason & H). vm_compute in H. discriminate.
Qed.

Lemma bad_request_is_invalid : invalid_submission runtime bad_request.
Proof.
  split; [exact atmega328pb_is_no_boot_source|].
  right. exists Voltage, "600". split; [reflexivity|]. split; [discriminate|].
  right. split; [discriminate|]. exists (Finite 600).
  split; [vm_compute; reflexivity|]. split; [discriminate|].
  intros [_ H]. vm_compute in H. apply H. reflexivity.
Defined.

Lemma invalid_submission_rejected_witness :
  invalid_submission runtime bad_request /\
  exists reason,
    receive_meter_data runtime on_the_27th one_reading bad_request
      = ((Error reason, 400), one_reading).
Proof.
  split; [exact bad_request_is_invalid|].
  exact (invalid_submission_rejected runtime on_the_27th one_reading
           bad_request bad_request_is_invalid).
Defined.

(** C7, as stated, fails twice.  A boot notification with its required
    fields missing is acknowledged, not answered with a validation
    failure.  And a voltage of NaN, which lies outside [0,500], is not
    rejected: the answer is [OK] and the store has gained a row. *)
Lemma failed_validation_not_rejected :
  (absent_or_empty (get boot_request "v") /\
   fst (receive_meter_data runtime on_the_26th empty_store boot_request)
     = (BOOT_ACK, 200)) /\
  (py_float runtime "nan" = Return NaN /\ ~ in_range 0 500 NaN /\
   fst (receive_meter_data runtime on_the_26th empty_store
          [("v", "nan"); ("c", "8.750"); ("k", "1250.75");
           ("s", "atmega328pb")]) = (OK 1, 200) /\
   length (readings (snd (receive_meter_data runtime on_the_26th empty_store
                            [("v", "nan"); ("c", "8.750"); ("k", "1250.75");
                             ("s", "atmega328pb")]))) = 1%nat).
Proof.
  split; [split; [left|]; reflexivity|].
  split; [reflexivity|]. split; [intros [H _]; exact H|].
  split; vm_compute; reflexivity.
Qed.


(** On [bad_request] the reason is the voltage's; the unparseable current
    is not mentioned. *)
Example bad_request_reason :
  fst (receive_meter_data runtime on_the_27th one_reading bad_request)
    = (Error "Invalid data format: Voltage 600.0V out of range (0-500V)", 400).
Proof. reflexivity. Qed.


(** C6 fails on the code: NaN lies in none of the ranges, yet every range
    test lets it pass, and the request [v=nan] is stored with status 200
    (SQLite keeping NULL for the voltage). *)
Theorem nan_passes_every_range_check :
  voltage_out_of_range NaN = false /\ ~ in_range 0 500 NaN /\
  current_out_of_range NaN = false /\ ~ in_range 0 1000 NaN /\
  power_factor_out_of_range NaN = false /\ ~ in_range 0 1 NaN /\
  frequency_out_of_range NaN = false /\ ~ in_range 45 65 NaN /\
  load_negative NaN = false /\ kwh_negative NaN = false /\
  ~ at_least 0 NaN /\
  py_float runtime "nan" = Return NaN /\
  fst (receive_meter_data runtime on_the_26th empty_store
         [("v", "nan"); ("c", "8.750"); ("k", "1250.75");
          ("s", "atmega328pb")]) = (OK 1, 200).
Proof.
  unfold in_range, at_least. simpl. repeat split; try tauto.
Qed.

Lemma get_readings_capped_and_descending_witness :
  exists rows,
    get_readings runtime on_the_27th two_readings (Some "atmega328pb") 1
      (Some "2025-07-01") None = Return rows /\
    StronglySorted newer_first rows /\
    Z.of_nat (length rows) <= 1.
Proof.
  destruct (get_readings_capped_and_descending runtime on_the_27th
              two_readings (Some "atmega328pb") 1 (Some "2025-07-01") None)
    as [Hreturns Hrows].
  destruct (Hreturns eq_refl eq_refl) as [rows H].
  exists rows. split; [exact H|].
  destruct (Hrows rows H) as [Hsorted [Hlen _]].
  split; [exact Hsorted | apply Hlen; lia].
Defined.

(** C8, as stated, fails: with [limit=-1] both stored readings come
    back, more than the limit. *)
Lemma negative_limit_is_no_cap :
  exists rows,
    get_readings runtime on_the_27th two_readings None (-1) None None
      = Return rows /\
    length rows = 2%nat /\
    ~ Z.of_nat (length rows) <= -1.
Proof.
  eexists. split; [vm_compute; reflexivity|]. split; [reflexivity|].
  simpl. lia.
Qed.

(** An instance of C9 on the sample store. *)
Example source_All_on_two_readings :
  exists rows,
    get_readings runtime on_the_27th two_readings (Some "All") 10 None None
      = Return rows /\
    get_readings runtime on_the_27th two_readings None 10 None None
      = Return rows /\
    length rows = 2%nat.
Proof. eexists. repeat split; vm_compute; reflexivity. Qed.

(** C4 fails on the code: with two readings stored in July, an export of
    July is answered with status 500 and the [DictWriter]'s error, because
    the rows of [SELECT *] carry [created_at], which is not among the
    field names; no reading is exported.  (The rows the handler had
    fetched came from [get_readings], newest first.)  The store's own
    [get_readings_by_date_range] returns both readings for the same
    range, the older first. *)
Theorem export_of_stored_readings_fails :
  length (readings two_readings) = 2%nat /\
  forallb (between_dates runtime "2025-07-01" "2025-07-31")
    (readings two_readings) = true /\
  export_data runtime on_the_27th two_readings july
    = (Error "dict contains fields not in fieldnames: 'created_at'", 500) /\
  (meter_readings.id <$>
   match get_readings runtime on_the_27th two_readings (get july "source")
           1000 (get july "start_date") (get july "end_date") with
   | Return rows => rows
   | Raise _ => []
   end) = [2; 1] /\
  (meter_readings.id <$>
   match get_readings_by_date_range runtime on_the_27th two_readings
           "2025-07-01" "2025-07-31" None with
   | Return rows => rows
   | Raise _ => []
   end) = [1; 2].
Proof. repeat split; vm_compute; reflexivity. Qed.

(** An export that selects nothing succeeds, with an empty CSV. *)
Example export_of_nothing :
  export_data runtime on_the_27th two_readings
    [("start_date", "2025-08-01")] = (Csv [], 200).
Proof. vm_compute. reflexivity. Qed.

(** C2 fails on the code: a device whose boot has been counted by
    [update_device_status] loses the count with its next reading.  The
    [INSERT OR REPLACE] of [insert_reading] carries [error_count] over
    and leaves [boot_count] to the column default. *)
Theorem reading_insert_resets_boot_count :
  let booted :=
    snd (update_device_status on_the_26th empty_store "atmega328pb" "online"
           true true) in
  let answer := receive_meter_data runtime on_the_27th booted reading_request in
  (device_status.boot_count <$> devices booted !! "atmega328pb" = Some 1) /\
  (device_status.error_count <$> devices booted !! "atmega328pb" = Some 1) /\
  fst answer = (OK 1, 200) /\
  (device_status.boot_count <$> devices (snd answer) !! "atmega328pb"
     = Some 0) /\
  (device_status.error_count <$> devices (snd answer) !! "atmega328pb"
     = Some 1).
Proof. vm_compute. repeat split. Qed.

Lemma failures_raised_or_absorbed_witness :
  insert_reading disk_full two_readings (Some (Finite 230.5)) None None None
    None None None 0 (Some "atmega328pb")
    = (Raise "database or disk is full", two_readings) /\
  get_readings runtime disk_full two_readings None 10 None None
    = Raise "database or disk is full" /\
  health_check disk_full two_readings = Return false /\
  insert_reading on_the_27th two_readings (Some (Finite 230.5)) None None None
    None None None 0 None
    = (Raise "NOT NULL constraint failed: device_status.source",
       two_readings).
Proof.
  destruct (failures_raised_or_absorbed runtime disk_full two_readings)
    as [Hio _].
  destruct (Hio "database or disk is full" eq_refl)
    as (_ & Hins & Hget & _ & _ & _ & _ & _ & Hhealth & _).
  destruct (failures_raised_or_absorbed runtime on_the_27th two_readings)
    as [_ Hcons].
  destruct (Hcons eq_refl) as (Hnull & _).
  split; [apply Hins|]. split; [apply Hget|]. split; [exact Hhealth|].
  apply Hnull. reflexivity.
Defined.

(** C3, as stated, fails: with the disk full, [get_statistics] returns the
    empty dict as an ordinary value, which [/api/stats] answers with
    status 200, and [update_device_status] returns normally although
    nothing was written. *)
Lemma storage_failure_absorbed :
  fault disk_full = Some "database or disk is full" /\
  get_statistics runtime disk_full two_readings = Return [] /\
  get_stats runtime disk_full two_readings = (Statistics [], 200) /\
  update_device_status disk_full two_readings "atmega328pb" "offline"
    false true = (Return tt, two_readings) /\
  (forall e, get_statistics runtime disk_full two_readings <> Raise e).
Proof. repeat split. intros e. discriminate. Qed.
End Samples.

(** * More properties *)

(** ** What a call of [insert_reading] can do *)

(** Either nothing (an exception, the store as before), or one new last
    row under the next id and the device row of its source replaced. *)
Lemma insert_reading_cases (env : Env) (db db' : Store)
    (v c pf l k f : option pyfloat) (d : option string) (r : Z)
    (s : option string) (res : result Z) :
  insert_reading env db v c pf l k f d r s = (res, db') ->
  (db' = db /\ exists e, res = Raise e) \/
  (exists src row dev,
     s = Some src /\ fault env = None /\ fits_int64 r = true /\
     res = Return (readings_seq db + 1) /\
     readings db' = (readings db ++ [row])%list /\
     readings_seq db' = readings_seq db + 1 /\
     devices db' = <[src := dev]> (devices db) /\
     devices_seq db' = devices_seq db + 1 /\
     logs db' = logs db /\ logs_seq db' = logs_seq db /\
     meter_readings.id row = readings_seq db + 1 /\
     meter_readings.source row = Some src /\
     meter_readings.received_at row = now env /\
     meter_readings.datetime_str row = d /\
     meter_readings.retry_count row = r /\
     meter_readings.voltage row = bind_real v /\
     meter_readings.current row = bind_real c /\
     meter_readings.power_factor row = bind_real pf /\
     meter_readings.load_kw row = bind_real l /\
     meter_readings.kwh row = bind_real k /\
     meter_readings.frequency row = bind_real f /\
     device_status.status dev = "online" /\
     device_status.last_seen dev = now env).
Proof.
  unfold insert_reading. destruct (fault env) as [e|].
  { intros [= <- <-]. left. eauto. }
  destruct (fits_int64 r); simpl; [|intros [= <- <-]; left; eauto].
  destruct s as [src|]; [|intros [= <- <-]; left; eauto].
  intros [= <- <-]. right. do 3 eexists. simpl. repeat split.
Qed.

(** What a request to [/meter] can do to the store: nothing, or what a
    successful [insert_reading] does. *)
Lemma receive_meter_data_store (rt : Runtime) (env : Env) (db : Store)
    (params : Params) :
  snd (receive_meter_data rt env db params) = db \/
  exists v id,
    validate rt (get params "v") (get params "c") (get params "pf")
      (get params "l") (get params "k") (get params "f")
      (get_default params "r" "0") = Return v /\
    insert_reading env db (volt_val v) (curr_val v) (pf_val v) (load_val v)
      (kwh_val v) (freq_val v) (get params "d") (retry_val v)
      (Some (get_default params "s" ""))
    = (Return id, snd (receive_meter_data rt env db params)).
Proof.
  unfold receive_meter_data.
  destruct (is_boot_notification _); [now left|].
  destruct (missing_fields _ _ _); [|now left].
  destruct (validate _ _ _ _ _ _ _ _) as [v|e]; [|now left].
  destruct (insert_reading _ _ _ _ _ _ _ _ _ _ _) as [[id|e] db'] eqn:Hins.
  - right. exists v, id. split; [reflexivity | exact Hins].
  - left. simpl. now apply insert_reading_raise in Hins.
Qed.

(** ** Reading ids *)

Lemma StronglySorted_filter {A} (R : relation A) (p : A -> bool)
    (l : list A) :
  StronglySorted R l -> StronglySorted R (List.filter p l).
Proof.
  induction 1 as [|a l Hl IH Ha]; simpl; [constructor|].
  destruct (p a); [|assumption]. constructor; [assumption|].
  rewrite Forall_forall in *. intros x Hx. apply Ha.
  rewrite list_elem_of_In in *. now apply filter_In in Hx.
Qed.

Lemma Forall_filter {A} (P : A -> Prop) (p : A -> bool) (l : list A) :
  Forall P l -> Forall P (List.filter p l).
Proof.
  rewrite !Forall_forall. intros H x Hx. apply H.
  rewrite list_elem_of_In in *. now apply filter_In in Hx.
Qed.

Lemma ids_in_order_insert (env : Env) (db db' : Store)
    (v c pf l k f : option pyfloat) (d : option string) (r : Z)
    (s : option string) (res : result Z) :
  insert_reading env db v c pf l k f d r s = (res, db') ->
  ids_in_order db -> ids_in_order db'.
Proof.
  intros H (Hseq & Hsorted & Hbound).
  apply insert_reading_cases in H as [[-> _]|H]; [now repeat split|].
  destruct H as (src & row & dev & _ & _ & _ & _ & Hrows & Hnext & _ & _ & _
                 & _ & Hid & _).
  unfold ids_in_order. rewrite Hrows, Hnext. split; [lia|]. split.
  - apply StronglySorted_app_2; [|assumption|repeat constructor].
    intros r1 r2 Hr1 Hr2. apply list_elem_of_singleton in Hr2 as ->.
    rewrite Forall_forall in Hbound. specialize (Hbound r1 Hr1).
    unfold before. lia.
  - apply Forall_app. split.
    + eapply Forall_impl; [exact Hbound|]. simpl. intros; lia.
    + repeat constructor; lia.
Qed.

Lemma ids_in_order_perform (rt : Runtime) (db : Store) (step : Env * call) :
  ids_in_order db -> ids_in_order (perform rt db step).
Proof.
  intros Hdb. destruct step as [env [params|v c pf l k f d r s|days
                                     |source status ib ie|level message m]];
    simpl.
  - destruct (receive_meter_data_store rt env db params)
      as [->|(v & id & _ & Hins)]; [assumption|].
    eapply ids_in_order_insert; eauto.
  - destruct (insert_reading _ _ _ _ _ _ _ _ _ _ _) as [res db'] eqn:Hins.
    eapply ids_in_order_insert; eauto.
  - unfold cleanup_old_data. destruct (fault env); [assumption|]. simpl.
    destruct Hdb as (Hseq & Hsorted & Hbound). repeat split; try assumption.
    + now apply StronglySorted_filter.
    + now apply Forall_filter.
  - unfold update_device_status. destruct (fault env); [assumption|].
    destruct (negb _); assumption.
  - unfold log_system_event. destruct (fault env); assumption.
Qed.

(** X1.  Whatever calls have been made on a fresh database, the stored
    readings lie in the order of their ids, strictly increasing (so no two
    rows share an id), and no id exceeds the last one handed out. *)
Theorem reading_ids_strictly_increasing (rt : Runtime)
    (steps : list (Env * call)) :
  StronglySorted before (readings (history rt steps)) /\
  NoDup (meter_readings.id <$> readings (history rt steps)) /\
  Forall (fun r => 0 < meter_readings.id r <= readings_seq (history rt steps))
    (readings (history rt steps)).
Proof.
  assert (H : ids_in_order (history rt steps)).
  { unfold history. induction steps as [|step steps IH] using rev_ind.
    - repeat split; [simpl; lia|constructor|constructor].
    - rewrite foldl_app. simpl. now apply ids_in_order_perform. }
  destruct H as (_ & Hsorted & Hbound). repeat split; try assumption.
  clear Hbound. induction Hsorted as [|a l Hl IH Ha]; simpl; constructor.
  - rewrite list_elem_of_fmap. intros (r & Hr & Hin).
    rewrite Forall_forall in Ha. specialize (Ha r Hin). unfold before in Ha.
    lia.
  - exact IH.
Qed.

Lemma readings_seq_perform (rt : Runtime) (db : Store) (step : Env * call) :
  readings_seq db <= readings_seq (perform rt db step).
Proof.
  assert (Hins : forall env v c pf l k f d r s res db',
            insert_reading env db v c pf l k f d r s = (res, db') ->
            readings_seq db <= readings_seq db').
  { intros env v c pf l k f d r s res db' H.
    apply insert_reading_cases in H as [[-> _]|H]; [lia|].
    destruct H as (src & row & dev & _ & _ & _ & _ & _ & -> & _). lia. }
  destruct step as [env [params|v c pf l k f d r s|days
                         |source status ib ie|level message m]]; simpl.
  - destruct (receive_meter_data_store rt env db params)
      as [->|(v & id & _ & H)]; [lia | eauto].
  - destruct (insert_reading _ _ _ _ _ _ _ _ _ _ _) as [res db'] eqn:H. eauto.
  - unfold cleanup_old_data. destruct (fault env); simpl; lia.
  - unfold update_device_status. destruct (fault env); [simpl; lia|].
    destruct (negb _); simpl; lia.
  - unfold log_system_event. destruct (fault env); simpl; lia.
Qed.

Lemma readings_seq_foldl (rt : Runtime) (steps : list (Env * call))
    (db : Store) :
  readings_seq db <= readings_seq (foldl (perform rt) db steps).
Proof.
  revert db. induction steps as [|step steps IH]; intros db; simpl; [lia|].
  pose proof (readings_seq_perform rt db step). specialize (IH (perform rt db
  step)). lia.
Qed.

(** X2.  An id is never handed out twice: an [insert_reading] that succeeds
    after an earlier successful one, whatever calls came in between (a
    cleanup that deleted the earlier row included), returns a strictly
    larger id. *)
Theorem reading_ids_never_reused (rt : Runtime) (env1 env2 : Env)
    (db0 db1 db2 : Store) (steps : list (Env * call))
    (v1 c1 pf1 l1 k1 f1 v2 c2 pf2 l2 k2 f2 : option pyfloat)
    (d1 d2 : option string) (r1 r2 : Z) (s1 s2 : option string)
    (id1 id2 : Z) :
  insert_reading env1 db0 v1 c1 pf1 l1 k1 f1 d1 r1 s1 = (Return id1, db1) ->
  insert_reading env2 (foldl (perform rt) db1 steps)
    v2 c2 pf2 l2 k2 f2 d2 r2 s2 = (Return id2, db2) ->
  id1 < id2.
Proof.
  intros H1 H2.
  apply insert_reading_cases in H1 as [[_ [e [=]]]|H1].
  apply insert_reading_cases in H2 as [[_ [e [=]]]|H2].
  destruct H1 as (? & ? & ? & _ & _ & _ & [= ->] & _ & Hseq1 & _).
  destruct H2 as (? & ? & ? & _ & _ & _ & [= ->] & _).
  pose proof (readings_seq_foldl rt steps db1). lia.
Qed.

(** ** Sources and device rows *)

Lemma sources_tracked_insert (env : Env) (db db' : Store)
    (v c pf l k f : option pyfloat) (d : option string) (r : Z)
    (s : option string) (res : result Z) :
  insert_reading env db v c pf l k f d r s = (res, db') ->
  sources_tracked db -> sources_tracked db'.
Proof.
  intros H Hdb.
  apply insert_reading_cases in H as [[-> _]|H]; [assumption|].
  destruct H as (src & row & dev & _ & _ & _ & _ & Hrows & _ & Hdev & _ & _
                 & _ & _ & Hsrc & _).
  intros x Hx. rewrite Hrows in Hx. rewrite Hdev.
  apply elem_of_app in Hx as [Hx|Hx].
  - destruct (Hdb x Hx) as (sx & Hsx & Hrow). exists sx. split; [assumption|].
    apply lookup_insert_is_Some'. now right.
  - apply list_elem_of_singleton in Hx as ->. exists src.
    split; [assumption|]. apply lookup_insert_is_Some'. now left.
Qed.

Lemma sources_tracked_perform (rt : Runtime) (db : Store)
    (step : Env * call) :
  sources_tracked db -> sources_tracked (perform rt db step).
Proof.
  intros Hdb. destruct step as [env [params|v c pf l k f d r s|days
                                     |source status ib ie|level message m]];
    simpl.
  - destruct (receive_meter_data_store rt env db params)
      as [->|(v & id & _ & Hins)]; [assumption|].
    eapply sources_tracked_insert; eauto.
  - destruct (insert_reading _ _ _ _ _ _ _ _ _ _ _) as [res db'] eqn:Hins.
    eapply sources_tracked_insert; eauto.
  - unfold cleanup_old_data. destruct (fault env); [assumption|]. simpl.
    intros x Hx. apply Hdb. rewrite list_elem_of_In in *.
    now apply filter_In in Hx.
  - unfold update_device_status. destruct (fault env); [assumption|].
    destruct (negb _); [assumption|]. intros x Hx.
    destruct (Hdb x Hx) as (sx & Hsx & Hrow). exists sx. split; [assumption|].
    simpl. apply lookup_insert_is_Some'. now right.
  - unfold log_system_event. destruct (fault env); assumption.
Qed.

(** X3.  Whatever calls have been made on a fresh database, no stored
    reading has a NULL source, and the source of every stored reading has
    a row in [device_status]. *)
Theorem stored_sources_have_device_rows (rt : Runtime)
    (steps : list (Env * call)) (r : meter_readings.row) :
  r ∈ readings (history rt steps) ->
  exists s, meter_readings.source r = Some s /\
            is_Some (devices (history rt steps) !! s).
Proof.
  revert r. change (sources_tracked (history rt steps)). unfold history.
  induction steps as [|step steps IH] using rev_ind.
  - intros r Hr. inversion Hr.
  - rewrite foldl_app. simpl. now apply sources_tracked_perform.
Qed.

(** ** What the validator lets through *)

Lemma float_step_inv {A} (rt : Runtime) (bad : pyfloat -> bool)
    (msg : pyfloat -> string) (text : option string)
    (k : option pyfloat -> result A) (a : A) :
  (x ← float_or_none rt text; check x bad msg;; k x) = Return a ->
  exists x, within (fun y => bad y = false) x /\
            (truthy text = true -> is_Some x) /\ k x = Return a.
Proof.
  unfold float_or_none.
  destruct text as [s|]; [|intros H; exists None; repeat split; auto;
                           discriminate].
  destruct (truthy (Some s)).
  - destruct (py_float rt s) as [x|e]; simpl; [|discriminate].
    destruct (bad x) eqn:Hbad; simpl; [discriminate|].
    intros H. exists (Some x). repeat split; eauto.
  - intros H. exists None. repeat split; auto. discriminate.
Qed.

(** Every value [validate] returns has passed its range test, and a field
    whose text was given has a value. *)
Lemma validate_checked (rt : Runtime)
    (voltage current power_factor load_kw kwh frequency : option string)
    (retry_count : string) (v : Validated) :
  validate rt voltage current power_factor load_kw kwh frequency retry_count
    = Return v ->
  within (fun x => voltage_out_of_range x = false) (volt_val v) /\
  within (fun x => current_out_of_range x = false) (curr_val v) /\
  within (fun x => power_factor_out_of_range x = false) (pf_val v) /\
  within (fun x => load_negative x = false) (load_val v) /\
  within (fun x => kwh_negative x = false) (kwh_val v) /\
  within (fun x => frequency_out_of_range x = false) (freq_val v) /\
  (truthy voltage = true -> is_Some (volt_val v)) /\
  (truthy current = true -> is_Some (curr_val v)) /\
  (truthy kwh = true -> is_Some (kwh_val v)) /\
  (if truthy (Some retry_count) then py_int rt retry_count else Return 0)
    = Return (retry_val v).
Proof.
  unfold validate. intros H.
  apply float_step_inv in H as (x1 & H1 & S1 & H).
  apply float_step_inv in H as (x2 & H2 & S2 & H).
  apply float_step_inv in H as (x3 & H3 & _ & H).
  apply float_step_inv in H as (x4 & H4 & _ & H).
  apply float_step_inv in H as (x5 & H5 & S5 & H).
  apply float_step_inv in H as (x6 & H6 & _ & H).
  destruct (if truthy (Some retry_count) then py_int rt retry_count
            else Return 0) as [n|e]; simpl in H; [|discriminate].
  injection H as <-. simpl. repeat split; assumption.
Qed.

Lemma stored_in_range (bad : pyfloat -> bool) (lo hi : Z)
    (x : option pyfloat) :
  (forall y, y <> NaN -> bad y = false <-> in_range lo hi y) ->
  within (fun y => bad y = false) x -> within (in_range lo hi) (bind_real x).
Proof.
  intros Hbad. destruct x as [[q| | |]|]; simpl; try tauto;
    intros H; apply Hbad in H; try discriminate; exact H.
Qed.

Lemma stored_at_least (bad : pyfloat -> bool) (lo : Z) (x : option pyfloat) :
  (forall y, y <> NaN -> bad y = false <-> at_least lo y) ->
  within (fun y => bad y = false) x -> within (at_least lo) (bind_real x).
Proof.
  intros Hbad. destruct x as [[q| | |]|]; simpl; try tauto;
    intros H; apply Hbad in H; try discriminate; exact H.
Qed.

Lemma plausible_meter (rt : Runtime) (env : Env) (db : Store)
    (params : Params) :
  Forall plausible (readings db) ->
  Forall plausible (readings (snd (receive_meter_data rt env db params))).
Proof.
  intros Hdb.
  destruct (receive_meter_data_store rt env db params)
    as [->|(v & id & Hv & Hins)]; [assumption|].
  apply validate_checked in Hv as (V1 & V2 & V3 & V4 & V5 & V6 & _).
  apply insert_reading_cases in Hins as [[_ [e [=]]]|Hins].
  destruct Hins as (src & row & dev & _ & _ & Hfits & _ & -> & _ & _ & _ & _
                    & _ & _ & _ & _ & _ & Hr & R1 & R2 & R3 & R4 & R5 & R6
                    & _).
  apply Forall_app. split; [assumption|]. constructor; [|constructor].
  unfold plausible. rewrite R1, R2, R3, R4, R5, R6, Hr.
  repeat split; try assumption;
    first [ eapply stored_in_range; [|eassumption]; intros y Hy;
            apply (range_checks_exact y Hy)
          | eapply stored_at_least; [|eassumption]; intros y Hy;
            apply (range_checks_exact y Hy) ].
Qed.

(** X4.  A database fed only by requests to [/meter] (and device-status
    updates) holds nothing out of range: every stored voltage lies in
    [0,500], current in [0,1000], power factor in [0,1], frequency in
    [45,65], load and kWh are non-negative, and the retry count fits 64
    bits; a NaN that slipped through validation is stored as NULL. *)
Theorem meter_readings_plausible (rt : Runtime)
    (steps : list (Env * operation)) :
  Forall plausible (readings (run rt steps empty_store)).
Proof.
  unfold run. induction steps as [|step steps IH] using rev_ind.
  - constructor.
  - rewrite foldl_app. simpl.
    destruct step as [env [params|source status ib ie]]; simpl.
    + now apply plausible_meter.
    + unfold update_device_status. destruct (fault env); [assumption|].
      destruct (negb _); assumption.
Qed.

(** ** The [/meter] handler *)

(** X5.  A submission that is no boot notification, carries [v], [c] and
    [k], has no field error and a retry count within 64 bits is, when
    sqlite3 does not fail, answered [OK] with status 200 and the next id;
    the store gains exactly one reading, the last row, stamped with the
    server clock and the submitted source and device time, and the
    source's device row is replaced by one that is online and last seen at
    that same instant. *)
Theorem accepted_submission_stored (rt : Runtime) (env : Env) (db : Store)
    (params : Params) :
  ~ contains_any_case "boot" (get_default params "s" "") ->
  ~ absent_or_empty (get params "v") ->
  ~ absent_or_empty (get params "c") ->
  ~ absent_or_empty (get params "k") ->
  first_error rt params = None ->
  (forall n, py_int rt (get_default params "r" "0") = Return n ->
             fits_int64 n = true) ->
  fault env = None ->
  exists db' row dev,
    receive_meter_data rt env db params
      = ((OK (readings_seq db + 1), 200), db') /\
    readings db' = (readings db ++ [row])%list /\
    meter_readings.id row = readings_seq db + 1 /\
    meter_readings.source row = Some (get_default params "s" "") /\
    meter_readings.datetime_str row = get params "d" /\
    meter_readings.received_at row = now env /\
    devices db' = <[get_default params "s" "" := dev]> (devices db) /\
    device_status.status dev = "online" /\
    device_status.last_seen dev = now env.
Proof.
  intros Hboot Hv Hc Hk Hfirst Hretry Hok.
  rewrite <- is_boot_notification_iff in Hboot.
  apply not_true_is_false in Hboot.
  rewrite <- truthy_false_iff in Hv, Hc, Hk.
  apply not_false_is_true in Hv, Hc, Hk.
  pose proof (validate_first_error rt params) as V. rewrite Hfirst in V.
  destruct V as [v Hval].
  unfold receive_meter_data, missing_fields.
  rewrite Hboot, Hv, Hc, Hk. simpl. rewrite Hval.
  apply validate_checked in Hval as (_ & _ & _ & _ & _ & _ & _ & _ & _ & Hr).
  assert (Hfits : fits_int64 (retry_val v) = true).
  { destruct (truthy (Some (get_default params "r" "0")));
      [now apply Hretry | now injection Hr as <-]. }
  destruct (insert_reading _ _ _ _ _ _ _ _ _ _ _) as [res db'] eqn:Hins.
  pose proof Hins as Hcases.
  apply insert_reading_cases in Hcases as [[_ [e ->]]|Hcases].
  - exfalso. revert Hins. unfold insert_reading. rewrite Hok, Hfits.
    discriminate.
  - destruct Hcases as (src & row & dev & [= <-] & _ & _ & -> & Hrows & _
                        & Hdev & _ & _ & _ & Hid & Hsrc & Hat & Hd & _ & _
                        & _ & _ & _ & _ & _ & Hon & Hseen).
    exists db', row, dev. repeat split; assumption.
Qed.

(** X7.  The filters of [get_readings] are conjunctive and exact: every
    row returned is a stored reading of the requested source (any source
    when it is absent, empty or [All]) whose date lies within the given
    bounds (a bound absent or empty does not restrict); and when the limit
    is negative or at least the number of stored readings, every such
    reading is returned. *)
Theorem get_readings_answers_the_request (rt : Runtime) (env : Env)
    (db : Store) (source : option string) (limit : Z)
    (start_date end_date : option string) (rows : list meter_readings.row) :
  get_readings rt env db source limit start_date end_date = Return rows ->
  (forall r, r ∈ rows -> requested rt db source start_date end_date r) /\
  (limit < 0 \/ Z.of_nat (length (readings db)) <= limit ->
   forall r, requested rt db source start_date end_date r -> r ∈ rows).
Proof.
  intros H. split.
  - intros r. exact (get_readings_sound _ _ _ _ _ _ _ _ r H).
  - intros Hlimit r. exact (get_readings_complete _ _ _ _ _ _ _ _ r H Hlimit).
Qed.

(** X8.  When the limit cuts the answer short, the rows kept are the
    newest: no requested reading left out was received later than a
    returned one. *)
Theorem limit_keeps_the_newest (rt : Runtime) (env : Env) (db : Store)
    (source : option string) (limit : Z) (start_date end_date : option string)
    (rows : list meter_readings.row) (kept left_out : meter_readings.row) :
  get_readings rt env db source limit start_date end_date = Return rows ->
  kept ∈ rows ->
  requested rt db source start_date end_date left_out ->
  left_out ∉ rows ->
  String.le (meter_readings.received_at left_out)
            (meter_readings.received_at kept).
Proof.
  intros H Hkept Hreq Hout. apply get_readings_value in H as ->.
  apply selected_requested in Hreq.
  rewrite <- (merge_sort_Permutation newer_first) in Hreq.
  set (sorted := merge_sort newer_first _) in *.
  assert (Hsorted : StronglySorted newer_first sorted)
    by (apply StronglySorted_merge_sort; apply _).
  unfold sql_limit in *. destruct (limit <? 0); [contradiction|].
  rewrite <- (take_drop (Z.to_nat limit) sorted) in Hreq, Hsorted.
  apply elem_of_app in Hreq as [?|Hdrop]; [contradiction|].
  exact (StronglySorted_app_1_elem_of _ _ _ _ _ Hsorted Hkept Hdrop).
Qed.

(** X9.  [get_latest_reading] never raises.  When sqlite3 does not fail it
    returns a stored reading of the requested source that no other such
    reading is newer than, and [None] only if the source has no reading;
    when sqlite3 fails it returns [None]. *)
Theorem latest_reading_is_newest (rt : Runtime) (env : Env) (db : Store)
    (source : option string) :
  match get_latest_reading rt env db source with
  | Return (Some latest) =>
    latest ∈ readings db /\ source_matches source latest /\
    forall r, r ∈ readings db -> source_matches source r ->
      String.le (meter_readings.received_at r)
                (meter_readings.received_at latest)
  | Return None =>
    fault env = None ->
    forall r, r ∈ readings db -> ~ source_matches source r
  | Raise _ => False
  end /\
  (fault env <> None -> get_latest_reading rt env db source = Return None).
Proof.
  split;
    [|unfold get_latest_reading, get_readings;
      destruct (fault env); [reflexivity | congruence]].
  unfold get_latest_reading.
  destruct (get_readings rt env db source 1 None None) as [rows|e] eqn:H.
  - pose proof (fun r => get_readings_sound rt env db source 1 None None
                           rows r H) as Hsound.
    apply get_readings_value in H.
    set (sorted := merge_sort newer_first _) in H.
    assert (Hsorted : StronglySorted newer_first sorted)
      by (apply StronglySorted_merge_sort; apply _).
    assert (Hall : forall r, r ∈ readings db -> source_matches source r ->
                             r ∈ sorted).
    { intros r Hr Hsrc. unfold sorted. rewrite merge_sort_Permutation.
      apply selected_requested. repeat split; assumption. }
    unfold sql_limit in H. simpl in H.
    destruct sorted as [|first others]; simpl in H; subst rows; simpl.
    + intros _ r Hr Hsrc. specialize (Hall r Hr Hsrc). inversion Hall.
    + destruct (Hsound first) as (Hin & Hsrc & _); [left|].
      split; [assumption|]. split; [assumption|].
      intros r Hr Hr_src. specialize (Hall r Hr Hr_src).
      apply elem_of_cons in Hall as [->|Hothers]; [reflexivity|].
      apply StronglySorted_inv in Hsorted as [_ Hfirst].
      rewrite Forall_forall in Hfirst. exact (Hfirst r Hothers).
  - simpl. intros Hok. exfalso. revert H. unfold get_readings.
    rewrite Hok. discriminate.
Qed.

(** ** Retention *)

Lemma filter_none_left {A} (p : A -> bool) (l : list A) :
  List.filter p (List.filter (fun x => negb (p x)) l) = [].
Proof.
  induction l as [|a l IH]; simpl; [reflexivity|].
  destruct (p a) eqn:E; simpl; [exact IH|]. now rewrite E.
Qed.

Lemma filter_again {A} (p : A -> bool) (l : list A) :
  List.filter p (List.filter p l) = List.filter p l.
Proof. apply forallb_filter_id, forallb_filter. Qed.

(** X10.  When sqlite3 does not fail, [cleanup_old_data] removes exactly
    the readings older than the retention window, in place, and returns
    how many it removed; device rows and the id counter are untouched; and
    a second cleanup at the same instant removes nothing. *)
Theorem cleanup_old_data_removes_the_old (env : Env) (db : Store)
    (days_to_keep : Z) :
  fault env = None ->
  exists db',
    cleanup_old_data env db days_to_keep
      = (Return (Z.of_nat (length (readings db))
                 - Z.of_nat (length (readings db'))), db') /\
    (forall r, r ∈ readings db' <->
       r ∈ readings db /\
       older_than env days_to_keep (meter_readings.received_at r) = false) /\
    readings db' `sublist_of` readings db /\
    devices db' = devices db /\ readings_seq db' = readings_seq db /\
    cleanup_old_data env db' days_to_keep = (Return 0, db').
Proof.
  intros Hok. unfold cleanup_old_data. rewrite Hok.
  eexists. split.
  { apply (f_equal2 pair); [|reflexivity]. simpl. f_equal.
    pose proof (filter_length
                  (fun r => older_than env days_to_keep
                              (meter_readings.received_at r)) (readings db)).
    lia. }
  split; [|split; [|split; [|split]]]; simpl; try reflexivity.
  - intros r. rewrite !list_elem_of_In, filter_In, negb_true_iff. tauto.
  - induction (readings db) as [|a l IH]; simpl; [constructor|].
    destruct (negb _); now constructor.
  - rewrite filter_none_left, filter_again. reflexivity.
Qed.

(** ** Statistics *)

Lemma count_by_source_lookup (rows : list meter_readings.row)
    (source : option string) :
  count_by_source rows !! source =
  match readings_of source rows with
  | O => None
  | S n => Some (Z.of_nat (S n))
  end.
Proof.
  unfold readings_of. induction rows as [|r rows IH]; simpl; [reflexivity|].
  destruct (decide (meter_readings.source r = source)) as [->|Hne].
  - rewrite lookup_insert_eq, bool_decide_true by reflexivity. simpl.
    change (foldr _ ∅ rows) with (count_by_source rows). rewrite IH.
    destruct (length _); simpl; f_equal; lia.
  - rewrite lookup_insert_ne, bool_decide_false by assumption. exact IH.
Qed.

Lemma max_received_at_spec (rows : list meter_readings.row) :
  match max_received_at rows with
  | Some t =>
    (exists r, r ∈ rows /\ meter_readings.received_at r = t) /\
    forall r, r ∈ rows -> String.le (meter_readings.received_at r) t
  | None => rows = []
  end.
Proof.
  induction rows as [|a rows IH]; simpl; [reflexivity|].
  change (foldr _ None rows) with (max_received_at rows).
  destruct (max_received_at rows) as [m|].
  - destruct IH as [(r0 & Hr0 & Hm) Hmax].
    destruct (String.leb m (meter_readings.received_at a)) eqn:E.
    + split; [exists a; split; [left | reflexivity]|].
      intros r Hr. apply elem_of_cons in Hr as [->|Hr]; [reflexivity|].
      transitivity m; [now apply Hmax|]. unfold String.le. now rewrite E.
    + split; [exists r0; split; [now right | assumption]|].
      intros r Hr. apply elem_of_cons in Hr as [->|Hr]; [|now apply Hmax].
      destruct (total String.le (meter_readings.received_at a) m) as [H|H];
        [exact H|]. unfold String.le in H. rewrite E in H. contradiction.
  - subst rows. split; [exists a; split; [left | reflexivity]|].
    intros r Hr. apply list_elem_of_singleton in Hr as ->. reflexivity.
Qed.

(** X11.  When sqlite3 does not fail, [get_statistics] reports as
    [total_readings] the number of stored readings, under [sources] a
    dict holding exactly the sources that have readings, each with its
    number of readings, and as [last_24h_readings] a count between 0 and
    the total; [avg_readings_per_hour] is the integer 0 exactly when that
    count is 0. *)
Theorem statistics_count_the_readings (rt : Runtime) (env : Env)
    (db : Store) :
  fault env = None ->
  exists sources last_24h latest avg devs mb,
    get_statistics rt env db =
      Return [ ("total_readings", SInt (Z.of_nat (length (readings db))));
               ("sources", SSources sources);
               ("last_24h_readings", SInt last_24h);
               ("latest_timestamp", SText latest);
               ("avg_readings_per_hour", avg);
               ("device_statuses", SDevices devs);
               ("database_size_bytes", SInt (file_size env));
               ("database_size_mb", SFloat mb) ] /\
    (forall source,
       sources !! source =
       match readings_of source (readings db) with
       | O => None
       | S n => Some (Z.of_nat (S n))
       end) /\
    0 <= last_24h <= Z.of_nat (length (readings db)) /\
    (avg = SInt 0 <-> last_24h = 0).
Proof.
  intros Hok. unfold get_statistics. rewrite Hok.
  do 6 eexists. split; [reflexivity|].
  split; [apply count_by_source_lookup|].
  pose proof (List.filter_length_le
                (fun r => within_last_day env (meter_readings.received_at r))
                (readings db)) as Hle.
  split; [lia|].
  destruct (Z.ltb_spec 0 (Z.of_nat (length (List.filter
              (fun r => within_last_day env (meter_readings.received_at r))
              (readings db))))) as [Hpos|Hzero].
  - split; [discriminate | lia].
  - split; [lia | reflexivity].
Qed.

(** X12.  In the same statistics [latest_timestamp] is the largest
    [received_at] of a stored reading, [None] exactly when there is no
    reading, and [device_statuses] lists the source, status and last-seen
    time of exactly the rows of [device_status]. *)
Theorem statistics_latest_and_devices (rt : Runtime) (env : Env)
    (db : Store) :
  fault env = None ->
  exists total sources last_24h latest avg devs size mb,
    get_statistics rt env db =
      Return [ ("total_readings", total); ("sources", sources);
               ("last_24h_readings", last_24h);
               ("latest_timestamp", SText latest);
               ("avg_readings_per_hour", avg);
               ("device_statuses", SDevices devs);
               ("database_size_bytes", size);
               ("database_size_mb", mb) ] /\
    match latest with
    | Some t =>
      (exists r, r ∈ readings db /\ meter_readings.received_at r = t) /\
      forall r, r ∈ readings db ->
                String.le (meter_readings.received_at r) t
    | None => readings db = []
    end /\
    (forall source status last_seen,
       (source, status, last_seen) ∈ devs <->
       exists d, devices db !! source = Some d /\
                 device_status.status d = status /\
                 device_status.last_seen d = last_seen).
Proof.
  intros Hok. unfold get_statistics. rewrite Hok.
  do 8 eexists. split; [reflexivity|].
  split; [apply max_received_at_spec|].
  intros source status last_seen. rewrite list_elem_of_fmap. split.
  - intros ([s d] & [= -> -> ->] & Hin).
    apply elem_of_map_to_list in Hin. eauto.
  - intros (d & Hd & <- & <-). exists (source, d).
    split; [reflexivity | now apply elem_of_map_to_list].
Qed.

(** ** Device status updates *)

Lemma fits_int64_iff (z : Z) :
  fits_int64 z = true <-> - 2 ^ 63 <= z <= 2 ^ 63 - 1.
Proof. unfold fits_int64. rewrite andb_true_iff, !Z.leb_le. reflexivity. Qed.

Lemma update_device_status_counts (env : Env) (db : Store)
    (source status : string) (ib ie : bool) :
  fault env = None ->
  fits_int64 (stored_boot_count db source + (if ib then 1 else 0)) = true ->
  fits_int64 (stored_error_count db source + (if ie then 1 else 0)) = true ->
  let db' := snd (update_device_status env db source status ib ie) in
  stored_boot_count db' source
    = stored_boot_count db source + (if ib then 1 else 0) /\
  stored_error_count db' source
    = stored_error_count db source + (if ie then 1 else 0) /\
  exists d, devices db' !! source = Some d /\
            device_status.status d = status /\
            device_status.last_seen d = now env.
Proof.
  unfold stored_boot_count, stored_error_count, update_device_status.
  intros -> Hb He. rewrite Hb, He. simpl. rewrite lookup_insert_eq.
  repeat split. eexists. repeat split.
Qed.

(** X13.  Over any series of [update_device_status] calls for a source in
    which sqlite3 does not fail and the counters stay within 64 bits,
    [boot_count] grows by exactly the number of calls with
    [increment_boot] and [error_count] by the number with
    [increment_error], starting from the stored counts (0 for a source
    without a row); after at least one call the source has a row. *)
Theorem status_updates_count (source : string) (db : Store)
    (updates : list (Env * string * bool * bool)) :
  Forall (fun '(env, _, _, _) => fault env = None) updates ->
  fits_int64 (stored_boot_count db source) = true ->
  fits_int64 (stored_error_count db source) = true ->
  fits_int64 (stored_boot_count db source + boots updates) = true ->
  fits_int64 (stored_error_count db source + errors updates) = true ->
  stored_boot_count (status_updates source db updates) source
    = stored_boot_count db source + boots updates /\
  stored_error_count (status_updates source db updates) source
    = stored_error_count db source + errors updates /\
  (updates <> [] ->
   is_Some (devices (status_updates source db updates) !! source)).
Proof.
  unfold status_updates, boots, errors.
  revert db. induction updates as [|[[[env status] ib] ie] updates IH];
    intros db Hok Hb0 He0 Hb He; simpl.
  - repeat split; try lia. congruence.
  - apply Forall_cons in Hok as [Hok Hoks].
    rewrite fits_int64_iff in Hb0, He0, Hb, He. simpl in Hb, He.
    pose proof (List.filter_length_le
                  (fun '(_, _, ib, _) => ib) updates) as Lb.
    pose proof (List.filter_length_le
                  (fun '(_, _, _, ie) => ie) updates) as Le.
    destruct (update_device_status_counts env db source status ib ie Hok)
      as (Hb1 & He1 & d & Hd & _).
    { apply fits_int64_iff. destruct ib; simpl in Hb; lia. }
    { apply fits_int64_iff. destruct ie; simpl in He; lia. }
    destruct (IH (snd (update_device_status env db source status ib ie)) Hoks)
      as (IHb & IHe & _).
    { apply fits_int64_iff. rewrite Hb1. destruct ib; simpl in Hb; lia. }
    { apply fits_int64_iff. rewrite He1. destruct ie; simpl in He; lia. }
    { apply fits_int64_iff. rewrite Hb1. destruct ib; simpl in Hb |- *; lia. }
    { apply fits_int64_iff. rewrite He1. destruct ie; simpl in He |- *; lia. }
    rewrite IHb, IHe, Hb1, He1.
    split; [destruct ib; simpl; lia|]. split; [destruct ie; simpl; lia|].
    intros _. destruct updates as [|u updates'].
    + simpl. eauto.
    + apply (IH (snd (update_device_status env db source status ib ie)) Hoks).
      * apply fits_int64_iff. rewrite Hb1. destruct ib; simpl in Hb; lia.
      * apply fits_int64_iff. rewrite He1. destruct ie; simpl in He; lia.
      * apply fits_int64_iff. rewrite Hb1.
        destruct ib; simpl in Hb |- *; lia.
      * apply fits_int64_iff. rewrite He1.
        destruct ie; simpl in He |- *; lia.
      * discriminate.
Qed.

(** ** The read handlers *)

(** X14.  [/api/data] without a [limit] parameter, or with one that is no
    integer, answers as under [limit=1000]: when sqlite3 does not fail,
    status 200 with at most 1000 readings, newest first, and a [count]
    equal to their number. *)
Theorem get_data_default_limit (rt : Runtime) (env : Env) (db : Store)
    (args : Params) :
  (get args "limit" = None \/
   exists s e, get args "limit" = Some s /\ py_int rt s = Raise e) ->
  fault env = None ->
  exists data,
    get_data rt env db args = (Readings (Z.of_nat (length data)) data, 200) /\
    get_readings rt env db (get args "source") 1000 (get args "start_date")
      (get args "end_date") = Return data /\
    (length data <= 1000)%nat /\
    StronglySorted newer_first data.
Proof.
  intros Hlimit Hok.
  assert (limit_arg rt args = 1000) as Hdefault.
  { unfold limit_arg. destruct Hlimit as [->|(s & e & -> & ->)]; reflexivity. }
  destruct (get_readings_returns rt env db (get args "source") 1000
              (get args "start_date") (get args "end_date") Hok eq_refl)
    as [data Hdata].
  destruct (get_readings_rows _ _ _ _ _ _ _ _ Hdata) as (_ & Hsorted & Hlen).
  exists data. unfold get_data. rewrite Hdefault, Hdata.
  repeat split; try assumption. lia.
Qed.

(** X15.  [/api/stats] never answers with an error: the status is always
    200, and when sqlite3 fails the statistics are the empty dict. *)
Theorem get_stats_always_200 (rt : Runtime) (env : Env) (db : Store) :
  exists statistics,
    get_stats rt env db = (Statistics statistics, 200) /\
    (fault env <> None -> statistics = []).
Proof.
  unfold get_stats, get_statistics. destruct (fault env) as [e|].
  - eexists. split; [reflexivity|]. reflexivity.
  - eexists. split; [reflexivity|]. congruence.
Qed.

(** ** Configuration *)

Lemma split_not_nil (sep : Ascii.ascii) (s : string) : split sep s <> [].
Proof.
  destruct s as [|c s]; simpl; [discriminate|].
  destruct (Ascii.eqb c sep); [discriminate|].
  destruct (split sep s); discriminate.
Qed.

Lemma concat_cons (sep piece : string) (pieces : list string) :
  pieces <> [] ->
  String.concat sep (piece :: pieces)
    = piece +:+ sep +:+ String.concat sep pieces.
Proof. destruct pieces; [congruence | reflexivity]. Qed.

(** X16.  [split] is undone by joining with the separator; no piece
    contains the separator, and there is always at least one piece (the
    empty string splits into one empty piece). *)
Theorem split_join (sep : Ascii.ascii) (s : string) :
  String.concat (String sep EmptyString) (split sep s) = s /\
  Forall (fun piece => contains (String sep EmptyString) piece = false)
    (split sep s) /\
  (1 <= length (split sep s))%nat.
Proof.
  induction s as [|c s (IHjoin & IHpieces & IHlen)]; simpl.
  - repeat split; [|lia]. repeat constructor.
  - destruct (Ascii.eqb_spec c sep) as [->|Hne].
    + rewrite concat_cons by apply split_not_nil. rewrite IHjoin.
      repeat split; [|simpl; lia]. constructor; [reflexivity | assumption].
    + pose proof (split_not_nil sep s) as Hnil.
      destruct (split sep s) as [|piece pieces]; [congruence|].
      apply Forall_cons in IHpieces as [Hpiece Hpieces].
      split; [|split; [|simpl; lia]].
      * destruct pieces as [|p ps]; [simpl in *; now rewrite IHjoin|].
        rewrite concat_cons in * by discriminate.
        rewrite app_cons. now rewrite IHjoin.
      * constructor; [|assumption].
        rewrite contains_unfold. rewrite Hpiece, orb_false_r. simpl.
        destruct (Ascii.ascii_dec sep c); [congruence|reflexivity].
Qed.

Lemma environ_int_returns (rt : Runtime) (environ : Params) (key : string)
    (dflt : Z) :
  (exists n, environ_int rt environ key dflt = Return n) <->
  (forall s, get environ key = Some s -> exists n, py_int rt s = Return n).
Proof.
  unfold environ_int. destruct (get environ key) as [s|].
  - split; [intros H s' [= <-]; exact H | eauto].
  - split; [discriminate | eauto].
Qed.

Lemma environ_float_returns (rt : Runtime) (environ : Params) (key : string)
    (dflt : pyfloat) :
  (exists x, environ_float rt environ key dflt = Return x) <->
  (forall s, get environ key = Some s -> exists x, py_float rt s = Return x).
Proof.
  unfold environ_float. destruct (get environ key) as [s|].
  - split; [intros H s' [= <-]; exact H | eauto].
  - split; [discriminate | eauto].
Qed.

(** X17.  Importing [config] succeeds exactly when every numeric setting
    the environment sets converts: the nine integer settings with [int],
    [EMISSION_FACTOR] with [float].  Unset settings take their defaults
    and never fail. *)
Theorem Config_loads_iff_numbers_convert (rt : Runtime) (environ : Params) :
  (exists c, Config rt environ = Return c) <-> numbers_convert rt environ.
Proof.
  unfold numbers_convert, int_settings. split.
  - intros [cfg H]. unfold Config in H.
    repeat match type of H with
    | mbind _ (environ_int rt environ ?key ?d) = _ =>
      let Hk := fresh "Hk" in
      destruct (environ_int rt environ key d) eqn:Hk;
        [|simpl in H; discriminate];
      pose proof (proj1 (environ_int_returns rt environ key d)
                        (ex_intro _ _ Hk));
      clear Hk; simpl in H
    | mbind _ (environ_float rt environ ?key ?d) = _ =>
      let Hk := fresh "Hk" in
      destruct (environ_float rt environ key d) eqn:Hk;
        [|simpl in H; discriminate];
      pose proof (proj1 (environ_float_returns rt environ key d)
                        (ex_intro _ _ Hk));
      clear Hk; simpl in H
    end.
    split; [|assumption].
    intros key s Hkey. repeat (apply elem_of_cons in Hkey as [->|Hkey]);
      [auto ..|inversion Hkey].
  - intros [Hint Hfloat]. unfold Config.
    repeat match goal with
    | |- exists c, mbind _ (environ_int rt environ ?key ?d) = _ =>
      let n := fresh "n" in
      let Hn := fresh "Hn" in
      destruct (proj2 (environ_int_returns rt environ key d)) as [n Hn];
        [intros s; apply Hint; repeat constructor|];
      rewrite Hn; simpl
    | |- exists c, mbind _ (environ_float rt environ ?key ?d) = _ =>
      let n := fresh "n" in
      let Hn := fresh "Hn" in
      destruct (proj2 (environ_float_returns rt environ key d)) as [n Hn];
        [exact Hfloat|];
      rewrite Hn; simpl
    end.
    eexists. reflexivity.
Qed.

Lemma dict_get_cons {V} (k : string) (v : V) (rest : list (string * V))
    (key : string) (dflt : V) :
  dict_get ((k, v) :: rest) key dflt
    = if String.eqb k key then v else dict_get rest key dflt.
Proof. reflexivity. Qed.

Lemma get_config_cases (rt : Runtime) (environ : Params) (env_name : string)
    (c : config) :
  get_config rt environ env_name = Return c ->
  exists base,
    Config rt environ = Return base /\
    (env_name = "production" /\ c = ProductionConfig base \/
     env_name = "testing" /\ c = TestingConfig base \/
     env_name <> "production" /\ env_name <> "testing"
     /\ c = DevelopmentConfig base).
Proof.
  unfold get_config, mbind, result_bind.
  destruct (Config rt environ) as [base|e]; [|discriminate].
  intros H.
  assert (c = dict_get (config_map base) env_name (DevelopmentConfig base))
    as -> by congruence.
  clear H. exists base. split; [reflexivity|].
  unfold config_map. rewrite dict_get_cons.
  destruct (String.eqb_spec "development" env_name) as [<-|H1].
  { right. right. repeat split; discriminate. }
  rewrite dict_get_cons.
  destruct (String.eqb_spec "production" env_name) as [<-|H2]; [now left|].
  rewrite dict_get_cons.
  destruct (String.eqb_spec "testing" env_name) as [<-|H3];
    [right; now left|].
  rewrite dict_get_cons.
  right. right. destruct (String.eqb "default" env_name);
    (split; [congruence|split; [congruence|reflexivity]]).
Qed.

(** X18.  [get_config] fails for no environment name: [production] and
    [testing] select their classes and every other name, known or not,
    selects the development class.  Production has [DEBUG] off, log level
    [WARNING] and the rate limit on at 30 per minute; development has
    [DEBUG] on and log level [DEBUG]; both whatever the environment
    variables say.  Testing uses the [:memory:] database and keeps the
    environment's [DEBUG].  The port is the environment's in all three. *)
Theorem get_config_selects (rt : Runtime) (environ : Params)
    (env_name : string) (base : config) :
  Config rt environ = Return base ->
  exists c,
    get_config rt environ env_name = Return c /\
    PORT c = PORT base /\
    (env_name = "production" ->
     DEBUG c = false /\ LOG_LEVEL c = "WARNING" /\
     RATE_LIMIT_ENABLED c = true /\ RATE_LIMIT_PER_MINUTE c = 30 /\
     DATABASE_PATH c = DATABASE_PATH base /\ TESTING c = None) /\
    (env_name = "testing" ->
     TESTING c = Some true /\ DATABASE_PATH c = ":memory:" /\
     LOG_LEVEL c = "DEBUG" /\
     DEBUG c = environ_flag environ "FLASK_DEBUG" "False") /\
    (env_name <> "production" -> env_name <> "testing" ->
     DEBUG c = true /\ LOG_LEVEL c = "DEBUG" /\
     DATABASE_PATH c = DATABASE_PATH base /\ TESTING c = None /\
     RATE_LIMIT_PER_MINUTE c = RATE_LIMIT_PER_MINUTE base).
Proof.
  intros Hbase.
  assert (Hdebug : DEBUG base = environ_flag environ "FLASK_DEBUG" "False"
                   /\ TESTING base = None).
  { revert Hbase. unfold Config.
    repeat match goal with
    | |- mbind _ ?m = _ -> _ => destruct m; simpl; [|discriminate]
    end.
    intros [= <-]. split; reflexivity. }
  destruct Hdebug as [Hdebug Htesting].
  destruct (get_config rt environ env_name) as [c|e] eqn:Hc.
  - exists c. split; [reflexivity|].
    apply get_config_cases in Hc as (base' & Hbase' & Hc).
    rewrite Hbase in Hbase'. injection Hbase' as <-.
    destruct Hc as [[-> ->]|[[-> ->]|(Hp & Ht & ->)]]; simpl;
      repeat split; intros; try congruence; try discriminate.
  - exfalso. revert Hc. unfold get_config. rewrite Hbase. discriminate.
Qed.

(** X19.  The validation ranges every configuration class carries are the
    ones the [/meter] handler enforces with its literal bounds: on every
    float but NaN each range test passes exactly on the range of the
    configuration. *)
Theorem config_ranges_are_enforced (rt : Runtime) (environ : Params)
    (env_name : string) (c : config) (x : pyfloat) :
  get_config rt environ env_name = Return c ->
  x <> NaN ->
  (voltage_out_of_range x = false <->
   in_range (fst (VOLTAGE_RANGE c)) (snd (VOLTAGE_RANGE c)) x) /\
  (current_out_of_range x = false <->
   in_range (fst (CURRENT_RANGE c)) (snd (CURRENT_RANGE c)) x) /\
  (power_factor_out_of_range x = false <->
   in_range (fst (POWER_FACTOR_RANGE c)) (snd (POWER_FACTOR_RANGE c)) x) /\
  (frequency_out_of_range x = false <->
   in_range (fst (FREQUENCY_RANGE c)) (snd (FREQUENCY_RANGE c)) x) /\
  (load_negative x = false <-> at_least (LOAD_MIN c) x) /\
  (kwh_negative x = false <-> at_least (KWH_MIN c) x).
Proof.
  intros Hc Hx.
  apply get_config_cases in Hc as (base & Hbase & Hc).
  assert (Hranges : VOLTAGE_RANGE base = (0, 500)
                    /\ CURRENT_RANGE base = (0, 1000)
                    /\ POWER_FACTOR_RANGE base = (0, 1)
                    /\ FREQUENCY_RANGE base = (45, 65)
                    /\ LOAD_MIN base = 0 /\ KWH_MIN base = 0).
  { revert Hbase. unfold Config.
    repeat match goal with
    | |- mbind _ ?m = _ -> _ => destruct m; simpl; [|discriminate]
    end.
    intros [= <-]. repeat split. }
  destruct Hranges as (R1 & R2 & R3 & R4 & R5 & R6).
  assert (VOLTAGE_RANGE c = (0, 500) /\ CURRENT_RANGE c = (0, 1000)
          /\ POWER_FACTOR_RANGE c = (0, 1) /\ FREQUENCY_RANGE c = (45, 65)
          /\ LOAD_MIN c = 0 /\ KWH_MIN c = 0) as (-> & -> & -> & -> & -> & ->).
  { destruct Hc as [[_ ->]|[[_ ->]|(_ & _ & ->)]]; simpl;
      repeat split; assumption. }
  exact (range_checks_exact x Hx).
Qed.

(** ** Insert, then query *)

(** X20.  A reading stored by [insert_reading] is found again: a later
    [get_readings] for its source, with a negative limit or one no
    smaller than the number of stored readings, returns a row with the
    returned id that carries the submitted source, device time, retry
    count and measurements (a NaN measurement as NULL) and the server
    time of the insert. *)
Theorem stored_reading_is_found (rt : Runtime) (env env' : Env)
    (db db' : Store) (v c pf l k f : option pyfloat) (d : option string)
    (r : Z) (s : string) (reading_id limit : Z) :
  insert_reading env db v c pf l k f d r (Some s) = (Return reading_id, db') ->
  fault env' = None -> fits_int64 limit = true ->
  limit < 0 \/ Z.of_nat (length (readings db')) <= limit ->
  exists rows row,
    get_readings rt env' db' (Some s) limit None None = Return rows /\
    row ∈ rows /\
    meter_readings.id row = reading_id /\
    meter_readings.source row = Some s /\
    meter_readings.received_at row = now env /\
    meter_readings.datetime_str row = d /\
    meter_readings.retry_count row = r /\
    meter_readings.voltage row = bind_real v /\
    meter_readings.current row = bind_real c /\
    meter_readings.power_factor row = bind_real pf /\
    meter_readings.load_kw row = bind_real l /\
    meter_readings.kwh row = bind_real k /\
    meter_readings.frequency row = bind_real f.
Proof.
  intros Hins Hok Hfits Hlimit.
  apply insert_reading_cases in Hins as [[_ [e [=]]]|Hins].
  destruct Hins as (src & row & dev & [= <-] & _ & _ & [= <-] & Hrows & _ & _
                    & _ & _ & _ & Hid & Hsrc & Hat & Hd & Hr & Hv & Hc & Hpf
                    & Hl & Hk & Hf & _).
  destruct (get_readings_returns rt env' db' (Some s) limit None None
              Hok Hfits) as [rows Hget].
  exists rows, row. split; [exact Hget|].
  split; [|repeat split; assumption].
  apply (get_readings_complete _ _ _ _ _ _ _ _ _ Hget Hlimit).
  repeat split.
  - rewrite Hrows. apply elem_of_app. right. left.
  - simpl. auto.
Qed.

(** ** The further properties at work on the samples *)

Section Scenarios.
Import Reference Sample Scenario.

Lemma reading_ids_never_reused_witness :
  insert_reading on_the_26th empty_store (Some (Finite 230.5)) None None
    None None None None 0 (Some "atmega328pb")
    = (Return 1, after_first_insert) /\
  readings (foldl (perform runtime) after_first_insert
              [(purge, Call_cleanup_old_data 30)]) = [] /\
  insert_reading on_the_27th
    (foldl (perform runtime) after_first_insert
       [(purge, Call_cleanup_old_data 30)])
    (Some (Finite 231)) None None None None None None 0
    (Some "atmega328pb") = (Return 2, after_second_insert) /\
  1 < 2.
Proof.
  assert (H1 : insert_reading on_the_26th empty_store (Some (Finite 230.5))
                 None None None None None None 0 (Some "atmega328pb")
               = (Return 1, after_first_insert))
    by (vm_compute; reflexivity).
  assert (H2 : insert_reading on_the_27th
                 (foldl (perform runtime) after_first_insert
                    [(purge, Call_cleanup_old_data 30)])
                 (Some (Finite 231)) None None None None None None 0
                 (Some "atmega328pb") = (Return 2, after_second_insert))
    by (vm_compute; reflexivity).
  split; [exact H1|]. split; [vm_compute; reflexivity|]. split; [exact H2|].
  exact (reading_ids_never_reused runtime _ _ _ _ _ _ _ _ _ _ _ _ _ _ _ _ _
           _ _ _ _ _ _ _ _ _ H1 H2).
Defined.

Lemma latest_reading_is_newest_witness :
  fault disk_full <> None /\
  get_latest_reading runtime disk_full two_readings None = Return None.
Proof.
  assert (H : fault disk_full <> None) by discriminate.
  split; [exact H|].
  exact (proj2 (latest_reading_is_newest runtime disk_full two_readings None)
           H).
Defined.

Lemma stored_sources_have_device_rows_witness :
  length (readings (history runtime
                      [(on_the_26th, Call_meter reading_request)])) = 1%nat /\
  Forall (fun r =>
            exists s, meter_readings.source r = Some s /\
                      is_Some (devices (history runtime
                                 [(on_the_26th, Call_meter reading_request)])
                               !! s))
    (readings (history runtime [(on_the_26th, Call_meter reading_request)])).
Proof.
  split; [vm_compute; reflexivity|].
  apply Forall_forall. intros r Hr.
  exact (stored_sources_have_device_rows runtime
           [(on_the_26th, Call_meter reading_request)] r Hr).
Defined.

Lemma accepted_submission_stored_witness :
  exists db' row dev,
    receive_meter_data runtime on_the_27th one_reading reading_request
      = ((OK (readings_seq one_reading + 1), 200), db') /\
    readings db' = (readings one_reading ++ [row])%list /\
    meter_readings.id row = readings_seq one_reading + 1 /\
    meter_readings.source row = Some (get_default reading_request "s" "") /\
    meter_readings.datetime_str row = get reading_request "d" /\
    meter_readings.received_at row = now on_the_27th /\
    devices db'
      = <[get_default reading_request "s" "" := dev]> (devices one_reading) /\
    device_status.status dev = "online" /\
    device_status.last_seen dev = now on_the_27th.
Proof.
  apply (accepted_submission_stored runtime on_the_27th one_reading
           reading_request).
  - exact atmega328pb_is_no_boot_source.
  - intros [H|H]; vm_compute in H; discriminate.
  - intros [H|H]; vm_compute in H; discriminate.
  - intros [H|H]; vm_compute in H; discriminate.
  - vm_compute. reflexivity.
  - intros n H. vm_compute in H. injection H as <-. reflexivity.
  - reflexivity.
Defined.

Lemma get_readings_answers_the_request_witness :
  exists rows,
    get_readings runtime on_the_27th two_readings (Some "atmega328pb") 10
      (Some "2025-07-27") None = Return rows /\
    length rows = 1%nat /\
    (forall r, r ∈ rows ->
       requested runtime two_readings (Some "atmega328pb")
         (Some "2025-07-27") None r) /\
    (forall r, requested runtime two_readings (Some "atmega328pb")
                 (Some "2025-07-27") None r -> r ∈ rows).
Proof.
  eexists. split; [vm_compute; reflexivity|]. split; [reflexivity|].
  destruct (get_readings_answers_the_request runtime on_the_27th two_readings
              (Some "atmega328pb") 10 (Some "2025-07-27") None _
              ltac:(vm_compute; reflexivity)) as [Hsound Hcomplete].
  split; [exact Hsound|]. apply Hcomplete. right. vm_compute. discriminate.
Defined.

Lemma limit_keeps_the_newest_witness :
  get_readings runtime on_the_27th two_readings None 1 None None
    = Return (drop 1 (readings two_readings)) /\
  Forall (fun older =>
            Forall (fun newer =>
                      String.le (meter_readings.received_at older)
                                (meter_readings.received_at newer))
                   (drop 1 (readings two_readings)))
         (take 1 (readings two_readings)).
Proof.
  assert (Hrows : get_readings runtime on_the_27th two_readings None 1 None
                    None = Return (drop 1 (readings two_readings)))
    by (vm_compute; reflexivity).
  assert (Hold : meter_readings.id <$> take 1 (readings two_readings) = [1])
    by (vm_compute; reflexivity).
  assert (Hnew : meter_readings.id <$> drop 1 (readings two_readings) = [2])
    by (vm_compute; reflexivity).
  split; [exact Hrows|].
  apply Forall_forall. intros older Holder.
  apply Forall_forall. intros newer Hnewer.
  apply (limit_keeps_the_newest runtime on_the_27th two_readings None 1 None
           None _ newer older Hrows Hnewer).
  - split; [|repeat split].
    apply (elem_of_sublist _ _ _ Holder (sublist_take _ _)).
  - intros Hin.
    apply (list_elem_of_fmap_2 meter_readings.id) in Holder, Hin.
    rewrite Hold in Holder. rewrite Hnew in Hin.
    apply list_elem_of_singleton in Holder, Hin. lia.
Defined.

Lemma cleanup_old_data_removes_the_old_witness :
  cleanup_old_data purge two_readings 30 = (Return 1, purged) /\
  length (readings purged) = 1%nat /\
  devices purged = devices two_readings /\
  cleanup_old_data purge purged 30 = (Return 0, purged).
Proof.
  destruct (cleanup_old_data_removes_the_old purge two_readings 30 eq_refl)
    as (db' & Hfirst & _ & _ & Hdev & _ & Hagain).
  assert (db' = purged) as -> by (apply (f_equal snd) in Hfirst; now symmetry).
  split; [vm_compute; reflexivity|]. split; [vm_compute; reflexivity|].
  split; [exact Hdev | exact Hagain].
Defined.

Lemma statistics_count_the_readings_witness :
  exists sources last_24h latest avg devs mb,
    get_statistics runtime purge two_readings =
      Return [ ("total_readings", SInt 2); ("sources", SSources sources);
               ("last_24h_readings", SInt last_24h);
               ("latest_timestamp", SText latest);
               ("avg_readings_per_hour", avg);
               ("device_statuses", SDevices devs);
               ("database_size_bytes", SInt 8192);
               ("database_size_mb", SFloat mb) ] /\
    sources !! Some "atmega328pb" = Some 2 /\
    sources !! Some "elsewhere" = None /\
    0 <= last_24h <= 2.
Proof.
  destruct (statistics_count_the_readings runtime purge two_readings eq_refl)
    as (sources & last_24h & latest & avg & devs & mb & H & Hsrc & Hlast & _).
  exists sources, last_24h, latest, avg, devs, mb.
  split; [exact H|]. split; [|split; [|exact Hlast]].
  - rewrite Hsrc. vm_compute. reflexivity.
  - rewrite Hsrc. vm_compute. reflexivity.
Defined.

Lemma statistics_latest_and_devices_witness :
  exists total sources last_24h latest avg devs size mb,
    get_statistics runtime purge two_readings =
      Return [ ("total_readings", total); ("sources", sources);
               ("last_24h_readings", last_24h);
               ("latest_timestamp", SText latest);
               ("avg_readings_per_hour", avg);
               ("device_statuses", SDevices devs);
               ("database_size_bytes", size);
               ("database_size_mb", mb) ] /\
    latest = Some t2 /\
    ("atmega328pb", "online", t2) ∈ devs.
Proof.
  destruct (statistics_latest_and_devices runtime purge two_readings eq_refl)
    as (total & sources & last_24h & latest & avg & devs & size & mb
        & H & _ & Hdevs).
  exists total, sources, last_24h, latest, avg, devs, size, mb.
  split; [exact H|]. split.
  - apply (f_equal (fun res => match res with
                               | Return [_; _; _; (_, SText t); _; _; _; _] => t
                               | _ => None
                               end)) in H.
    rewrite <- H. vm_compute. reflexivity.
  - apply Hdevs. eexists. split; [vm_compute; reflexivity|].
    split; reflexivity.
Defined.

Lemma status_updates_count_witness :
  stored_boot_count
    (status_updates "atmega328pb" empty_store three_updates) "atmega328pb"
    = 0 + 2 /\
  stored_error_count
    (status_updates "atmega328pb" empty_store three_updates) "atmega328pb"
    = 0 + 1.
Proof.
  destruct (status_updates_count "atmega328pb" empty_store three_updates)
    as (Hboots & Herrors & _); try reflexivity.
  - repeat constructor.
  - split; [exact Hboots | exact Herrors].
Defined.

Lemma get_data_default_limit_witness :
  exists data,
    get_data runtime on_the_27th two_readings [("limit", "many")]
      = (Readings (Z.of_nat (length data)) data, 200) /\
    (length data <= 1000)%nat.
Proof.
  destruct (get_data_default_limit runtime on_the_27th two_readings
              [("limit", "many")]) as (data & H & _ & Hlen & _).
  - right. do 2 eexists. split; [reflexivity | vm_compute; reflexivity].
  - reflexivity.
  - exists data. split; assumption.
Defined.

Lemma Config_loads_iff_numbers_convert_witness :
  numbers_convert runtime environ /\
  ~ numbers_convert runtime [("LOG_MAX_BYTES", "10MB")].
Proof.
  split.
  - apply (Config_loads_iff_numbers_convert runtime environ).
    eexists. vm_compute. reflexivity.
  - intros H.
    apply (Config_loads_iff_numbers_convert runtime
             [("LOG_MAX_BYTES", "10MB")]) in H as [c H].
    vm_compute in H. discriminate.
Defined.

Lemma get_config_selects_witness :
  exists c,
    get_config runtime environ "staging" = Return c /\
    PORT c = 5000 /\ DEBUG c = true /\ LOG_LEVEL c = "DEBUG".
Proof.
  destruct (Config runtime environ) as [base|e] eqn:Hbase;
    [|vm_compute in Hbase; discriminate].
  destruct (get_config_selects runtime environ "staging" base Hbase)
    as (c & Hc & Hport & _ & _ & Hdev).
  destruct Hdev as (Hdebug & Hlog & _); [discriminate | discriminate|].
  exists c. split; [exact Hc|]. split; [|split; assumption].
  rewrite Hport. vm_compute in Hbase. injection Hbase as <-. reflexivity.
Defined.

Lemma config_ranges_are_enforced_witness :
  voltage_out_of_range (Finite 500) = false <->
  in_range 0 500 (Finite 500).
Proof.
  destruct (get_config runtime environ "production") as [c|e] eqn:Hc;
    [|vm_compute in Hc; discriminate].
  destruct (config_ranges_are_enforced runtime environ "production" c
              (Finite 500) Hc ltac:(discriminate)) as [Hv _].
  vm_compute in Hc. injection Hc as <-. exact Hv.
Defined.
Lemma stored_reading_is_found_witness :
  exists db' rows row,
    insert_reading on_the_26th empty_store (Some (Finite 230.5)) None None
      None (Some NaN) None None 0 (Some "atmega328pb") = (Return 1, db') /\
    get_readings runtime on_the_27th db' (Some "atmega328pb") (-1)
      None None = Return rows /\
    row ∈ rows /\ meter_readings.id row = 1 /\
    meter_readings.voltage row = Some (Finite 230.5) /\
    meter_readings.kwh row = None.
Proof.
  exists (snd (insert_reading on_the_26th empty_store (Some (Finite 230.5))
                 None None None (Some NaN) None None 0 (Some "atmega328pb"))).
  assert (E : insert_reading on_the_26th empty_store (Some (Finite 230.5))
                None None None (Some NaN) None None 0 (Some "atmega328pb")
              = (Return 1,
                 snd (insert_reading on_the_26th empty_store
                        (Some (Finite 230.5)) None None None (Some NaN) None
                        None 0 (Some "atmega328pb"))))
    by (vm_compute; reflexivity).
  destruct (stored_reading_is_found runtime on_the_26th on_the_27th _ _ _ _ _
              _ _ _ _ _ _ _ (-1) E eq_refl eq_refl ltac:(left; lia))
    as (rows & row & Hget & Hin & Hid & _ & _ & _ & _ & Hv & _ & _ & _
        & Hk & _).
  exists rows, row. repeat split; assumption.
Defined.
End Scenarios.
